(** * ReactRadar: the brand analysis pipeline, embedded and verified

    A shallow embedding of the core of the ReactRadar repository
    ([sentiment_analyzer.py], [brand_segmenter.py], [insight_generator.py]
    and the per-brand loop of [analysis_engine.py]) together with the
    properties its specification states about it.

    Conventions of the embedding:
    - a Python [float] is a binary64 value, the kernel's primitive [float];
      a float literal of the source is the same literal here (both round the
      decimal to the nearest binary64);
    - a Python [int] is a [Z];
    - a Python [str] is a [string] whose characters are the code points
      0..255; [lower] and [strip] are CPython's on that range;
    - a [dict] used as a map is a [gmap], a [set] a [gset]; a dataclass is a
      record; an [Enum] is an inductive type. *)

From Stdlib Require Import ZArith QArith Qabs Floats Uint63 List String Ascii Lia Bool.
From stdpp Require Import base gmap strings.

#[local] Set Warnings "-inexact-float".
#[local] Open Scope string_scope.
#[local] Open Scope list_scope.
#[local] Open Scope Z_scope.

(** ** Python built-ins used by the sources *)

Module Py.

(** [float(z)] for an [int] of magnitude below 2^63 (exact below 2^53). *)
Definition float_of_int (z : Z) : float :=
  if z <? 0 then PrimFloat.opp (PrimFloat.of_uint63 (Uint63.of_Z (- z)))
  else PrimFloat.of_uint63 (Uint63.of_Z z).

(** [a / b] on two [int]s: true division, the correctly rounded quotient. *)
Definition int_truediv (a b : Z) : float :=
  PrimFloat.div (float_of_int a) (float_of_int b).

(** [sum(xs)] over [int]s and over [float]s (left to right, from [0]). *)
Definition sum_int (xs : list Z) : Z := fold_left Z.add xs 0.

Definition sum_float (xs : list float) : float :=
  fold_left PrimFloat.add xs 0%float.

(** [len(xs)]. *)
Definition len {A} (xs : list A) : Z := Z.of_nat (length xs).

(** [c.lower()] on one code point below 256: A-Z, and the Latin-1 capitals
    U+00C0..U+00DE without the multiplication sign U+00D7. *)
Definition lower_char (c : ascii) : ascii :=
  let n := N_of_ascii c in
  if ((65 <=? n) && (n <=? 90) || (192 <=? n) && (n <=? 222) && negb (n =? 215))%N
  then ascii_of_N (n + 32)
  else c.

(** [s.lower()]. *)
Fixpoint lower (s : string) : string :=
  match s with
  | EmptyString => EmptyString
  | String c s' => String (lower_char c) (lower s')
  end.

(** [c.isspace()] on one code point below 256. *)
Definition isspace (c : ascii) : bool :=
  let n := N_of_ascii c in
  ((9 <=? n) && (n <=? 13) || (28 <=? n) && (n <=? 32) || (n =? 133) || (n =? 160))%N.

Fixpoint lstrip (s : string) : string :=
  match s with
  | EmptyString => EmptyString
  | String c s' => if isspace c then lstrip s' else s
  end.

Fixpoint rstrip (s : string) : string :=
  match s with
  | EmptyString => EmptyString
  | String c s' =>
      match rstrip s' with
      | EmptyString => if isspace c then EmptyString else String c EmptyString
      | r => String c r
      end
  end.

(** [s.strip()]. *)
Definition strip (s : string) : string := rstrip (lstrip s).

(** [w in t] on strings: [w] occurs in [t] as a contiguous substring. *)
Fixpoint str_in (w t : string) : bool :=
  String.prefix w t ||
  match t with
  | EmptyString => false
  | String _ t' => str_in w t'
  end.

(** The character class [[.!?]] of the sentence pattern. *)
Definition is_terminator (c : ascii) : bool :=
  (Ascii.eqb c "." || Ascii.eqb c "!" || Ascii.eqb c "?")%char.

(** [re.split(r'[.!?]+', s)]: the pieces of [s] between the maximal runs of
    terminators, in order; the piece before a leading run and the piece after
    a trailing run are empty strings.  [in_run] tells that the character just
    read belonged to a run, so that a further terminator extends that run
    instead of closing another piece. *)
Fixpoint re_split_from (in_run : bool) (s : string) : list string :=
  match s with
  | EmptyString => [EmptyString]
  | String c s' =>
      if is_terminator c then
        if in_run then re_split_from true s'
        else EmptyString :: re_split_from true s'
      else
        match re_split_from false s' with
        | piece :: pieces => String c piece :: pieces
        | [] => [String c EmptyString]
        end
  end.

Definition re_split (s : string) : list string := re_split_from false s.

(** Truth value of an [Optional[float]] and of an [Optional[int]]: [None] and
    zero are false. *)
Definition truthy_float (x : option float) : bool :=
  match x with
  | None => false
  | Some v => negb (v =? 0)%float
  end.

Definition truthy_int (x : option Z) : bool :=
  match x with
  | None => false
  | Some v => negb (v =? 0)
  end.

(** [x or d] on an [Optional[float]]. *)
Definition float_or (x : option float) (d : float) : float :=
  match x with
  | Some v => if truthy_float x then v else d
  | None => d
  end.

(** [min(x :: xs, key=key)] and [max(x :: xs, key=key)] on a non-empty list:
    the running best is replaced only by an item whose key is strictly
    smaller (strictly larger), so the first of several equal items stays. *)
Definition min_by {A : Type} (key : A -> float) (x : A) (xs : list A) : A :=
  fold_left (fun best item => if (key item <? key best)%float then item else best) xs x.

Definition max_by {A : Type} (key : A -> float) (x : A) (xs : list A) : A :=
  fold_left (fun best item => if (key best <? key item)%float then item else best) xs x.

(** [sep.join(parts)]. *)
Fixpoint join (sep : string) (parts : list string) : string :=
  match parts with
  | [] => EmptyString
  | [part] => part
  | part :: rest => (part ++ sep ++ join sep rest)%string
  end.

End Py.

(** ** sentiment_analyzer.py *)

Module SentimentAnalyzer.

Record SentimentResult := mkSentimentResult {
  text : string;
  label : string;
  score : float;
  rating : Z
}.

Record BrandSentiment := mkBrandSentiment {
  brand : string;
  statements : list SentimentResult;
  avg_score : float;
  avg_rating : float;
  positive_count : Z;
  negative_count : Z;
  neutral_count : Z
}.

(** The state of a [SentimentAnalyzer] object: its three keyword sets.  They
    are Python sets; only the number of members found in a text is ever used,
    so the order in which they are listed is immaterial. *)
Record t := mkSentimentAnalyzer {
  positive_keywords : list string;
  negative_keywords : list string;
  neutral_keywords : list string
}.

(** [SentimentAnalyzer()]: the object that [__init__] builds. *)
Definition __init__ : t :=
  mkSentimentAnalyzer
    [ "excellent"; "great"; "good"; "best"; "outstanding"; "impressive";
      "recommend"; "love"; "enjoy"; "smooth"; "delicious"; "rich";
      "high quality"; "solid"; "versatile"; "convenient"; "effective" ]
    [ "bad"; "poor"; "worst"; "terrible"; "disappointing"; "awful";
      "expensive"; "overpriced"; "clumpy"; "gritty"; "artificial";
      "aftertaste"; "digestive"; "discomfort"; "drawback"; "downside" ]
    [ "offers"; "contains"; "delivers"; "provides"; "includes";
      "available"; "priced"; "costs"; "flavors"; "serving" ].

(** [sum(1 for word in keywords if word in text_lower)]. *)
Definition keyword_hits (keywords : list string) (text_lower : string) : Z :=
  Py.sum_int
    (map (fun _ => 1) (List.filter (fun word => Py.str_in word text_lower) keywords)).

Definition _score_to_rating (score : float) : Z :=
  if (0.8 <=? score)%float then 5
  else if (0.6 <=? score)%float then 4
  else if (0.4 <=? score)%float then 3
  else if (0.2 <=? score)%float then 2
  else 1.

Definition analyze_statement (self : t) (text : string) : SentimentResult :=
  let text_lower := Py.lower text in
  let positive_count := keyword_hits (positive_keywords self) text_lower in
  let negative_count := keyword_hits (negative_keywords self) text_lower in
  let neutral_count := keyword_hits (neutral_keywords self) text_lower in
  let total_keywords := positive_count + negative_count + neutral_count in
  let score :=
    if total_keywords =? 0 then 0.5%float
    else
      let score := Py.int_truediv (positive_count - negative_count) total_keywords in
      ((score + 1) / 2)%float in
  let label :=
    if (0.6 <? score)%float then "POSITIVE"
    else if (score <? 0.4)%float then "NEGATIVE"
    else "NEUTRAL" in
  let rating := _score_to_rating score in
  mkSentimentResult text label score rating.

(** [sum(1 for r in results if r.label == l)]. *)
Definition label_count (l : string) (results : list SentimentResult) : Z :=
  Py.sum_int
    (map (fun _ => 1) (List.filter (fun r => String.eqb (label r) l) results)).

Definition analyze_brand_statements (self : t) (brand : string)
  (statements : list string) : BrandSentiment :=
  let sentiment_results :=
    fold_left (fun acc statement => acc ++ [analyze_statement self statement])
              statements [] in
  match sentiment_results with
  | [] => mkBrandSentiment brand [] 0.0%float 0.0%float 0 0 0
  | _ =>
      let avg_score :=
        (Py.sum_float (map score sentiment_results)
         / Py.float_of_int (Py.len sentiment_results))%float in
      let avg_rating :=
        Py.int_truediv (Py.sum_int (map rating sentiment_results))
                       (Py.len sentiment_results) in
      mkBrandSentiment brand sentiment_results avg_score avg_rating
        (label_count "POSITIVE" sentiment_results)
        (label_count "NEGATIVE" sentiment_results)
        (label_count "NEUTRAL" sentiment_results)
  end.

Definition extract_statements_about_brand (self : t) (text brand : string)
  : list string :=
  let brand_normalized := Py.strip (Py.lower brand) in
  let sentences := Py.re_split text in
  fold_left
    (fun statements sentence =>
       let sentence_clean := Py.strip (Py.lower sentence) in
       if Py.str_in brand_normalized sentence_clean
       then statements ++ [Py.strip sentence]
       else statements)
    sentences [].

(** One entry of the ["statements"] list of a rating row. *)
Record StatementRow := mkStatementRow {
  row_text : string;
  row_label : string;
  row_rating : Z
}.

(** The rating row, a dict with the same eight keys wherever it is built. *)
Record RatingRow := mkRatingRow {
  rr_brand : string;
  rr_avg_rating : float;
  rr_avg_score : float;
  rr_total_statements : Z;
  rr_positive_percentage : float;
  rr_negative_percentage : float;
  rr_neutral_percentage : float;
  rr_statements : list StatementRow
}.

(** [round] is Python's built-in [round(x, ndigits)] on floats; it belongs to
    the interpreter, not to the repository, and is taken as a parameter. *)
Definition create_rating_summary (round : float -> Z -> float) (self : t)
  (brand_sentiment : BrandSentiment) : RatingRow :=
  let total := Py.len (statements brand_sentiment) in
  if total =? 0 then
    mkRatingRow (brand brand_sentiment) 0.0%float 0.0%float 0
                0.0%float 0.0%float 0.0%float []
  else
    mkRatingRow (brand brand_sentiment)
      (round (avg_rating brand_sentiment) 2)
      (round (avg_score brand_sentiment) 3)
      total
      (round (Py.int_truediv (positive_count brand_sentiment) total * 100)%float 1)
      (round (Py.int_truediv (negative_count brand_sentiment) total * 100)%float 1)
      (round (Py.int_truediv (neutral_count brand_sentiment) total * 100)%float 1)
      (map (fun s => mkStatementRow (text s) (label s) (rating s))
           (statements brand_sentiment)).

End SentimentAnalyzer.

(** ** brand_segmenter.py *)

Module PriceCategory.
Inductive t := BUDGET | MID_RANGE | PREMIUM.
End PriceCategory.

Module QualityCategory.
Inductive t := BASIC | STANDARD | PREMIUM.
End QualityCategory.

Module BrandSegmenter.

Record BrandSegment := mkBrandSegment {
  brand : string;
  price_category : PriceCategory.t;
  quality_category : QualityCategory.t;
  avg_rating : float;
  price_per_serving : option float;
  protein_content : option Z;
  third_party_tested : bool;
  artificial_sweeteners : bool;
  features : list string
}.

(** The threshold dicts, read in insertion order by [.items()]. *)
Definition price_thresholds : list (PriceCategory.t * float) :=
  [ (PriceCategory.BUDGET, 0.90%float);
    (PriceCategory.MID_RANGE, 1.20%float);
    (PriceCategory.PREMIUM, infinity) ].

Definition quality_thresholds : list (QualityCategory.t * float) :=
  [ (QualityCategory.BASIC, 4.0%float);
    (QualityCategory.STANDARD, 4.5%float);
    (QualityCategory.PREMIUM, infinity) ].

(** What the five [.get] calls of [segment_brand] read from one entry of
    [brand_data]. *)
Record BrandInfo := mkBrandInfo {
  info_price_per_serving : option float;
  info_protein_content : option Z;
  info_third_party_tested : bool;
  info_artificial_sweeteners : bool;
  info_features : list string
}.

(** The empty dict [{}] that [brand_data.get(brand, {})] falls back to. *)
Definition no_info : BrandInfo := mkBrandInfo None None false false [].

Definition brand_data : gmap string BrandInfo :=
  <["Kirkland" := mkBrandInfo (Some 0.78%float) (Some 25) false true
      ["Costco brand"; "Good mixability"; "Budget friendly"]]>
  (<["Isopure" := mkBrandInfo (Some 1.30%float) (Some 25) false true
      ["High protein percentage"; "Added vitamins"; "Premium quality"]]>
  (<["Datiz" := mkBrandInfo (Some 1.26%float) (Some 25) true true
      ["Third party tested"; "High protein content"; "BCAAs included"]]>
  (<["Accent" := mkBrandInfo (Some 0.88%float) (Some 25) true false
      ["Clean ingredients"; "No artificial sweeteners"; "Athlete tested"]]>
  (<["My Protein" := mkBrandInfo (Some 0.62%float) (Some 25) true true
      ["Best value"; "High protein percentage"; "Third party tested"]]>
  (<["Optimum Nutrition" := mkBrandInfo (Some 0.88%float) (Some 24) false true
      ["Widely recognized"; "18 flavors"; "Good value"]]>
  ∅))))).

(** [for category, threshold in table: if x <= threshold: return category],
    then the [return] after the loop. *)
Fixpoint first_within {C : Type} (x : float) (table : list (C * float)) (otherwise : C) : C :=
  match table with
  | [] => otherwise
  | (category, threshold) :: rest =>
      if (x <=? threshold)%float then category else first_within x rest otherwise
  end.

Definition _categorize_price (price_per_serving : option float) : PriceCategory.t :=
  match price_per_serving with
  | None => PriceCategory.MID_RANGE
  | Some price => first_within price price_thresholds PriceCategory.PREMIUM
  end.

Definition _categorize_quality (avg_rating : float) : QualityCategory.t :=
  first_within avg_rating quality_thresholds QualityCategory.PREMIUM.

Definition segment_brand (brand : string) (avg_rating : float) : BrandSegment :=
  let brand_info := default no_info (brand_data !! brand) in
  let price_per_serving := info_price_per_serving brand_info in
  let price_category := _categorize_price price_per_serving in
  let quality_category := _categorize_quality avg_rating in
  mkBrandSegment brand price_category quality_category avg_rating
    price_per_serving
    (info_protein_content brand_info)
    (info_third_party_tested brand_info)
    (info_artificial_sweeteners brand_info)
    (info_features brand_info).

(** [category.value] of the two enums. *)
Definition price_value (c : PriceCategory.t) : string :=
  match c with
  | PriceCategory.BUDGET => "budget"
  | PriceCategory.MID_RANGE => "mid_range"
  | PriceCategory.PREMIUM => "premium"
  end.

Definition quality_value (c : QualityCategory.t) : string :=
  match c with
  | QualityCategory.BASIC => "basic"
  | QualityCategory.STANDARD => "standard"
  | QualityCategory.PREMIUM => "premium"
  end.

(** [==] on the members of each enum. *)
Definition price_eqb (a b : PriceCategory.t) : bool :=
  match a, b with
  | PriceCategory.BUDGET, PriceCategory.BUDGET
  | PriceCategory.MID_RANGE, PriceCategory.MID_RANGE
  | PriceCategory.PREMIUM, PriceCategory.PREMIUM => true
  | _, _ => false
  end.

Definition quality_eqb (a b : QualityCategory.t) : bool :=
  match a, b with
  | QualityCategory.BASIC, QualityCategory.BASIC
  | QualityCategory.STANDARD, QualityCategory.STANDARD
  | QualityCategory.PREMIUM, QualityCategory.PREMIUM => true
  | _, _ => false
  end.

(** What [segment_all_brands] reads from one rating dict: the value under
    ["brand"] and the value under ["avg_rating"], [None] when the key is
    absent. *)
Record RatingDict := mkRatingDict {
  get_brand : option string;
  get_avg_rating : option float
}.

(** The dict that the sentiment analyzer and the orchestrator build always
    has both keys. *)
Definition rating_dict (row : SentimentAnalyzer.RatingRow) : RatingDict :=
  mkRatingDict (Some (SentimentAnalyzer.rr_brand row))
               (Some (SentimentAnalyzer.rr_avg_rating row)).

(** Truth value of [brand_data.get("brand")]: [None] and [""] are false. *)
Definition truthy_brand (brand : option string) : bool :=
  match brand with
  | Some name => negb (String.eqb name "")
  | None => false
  end.

Definition segment_all_brands (brand_ratings : list RatingDict) : list BrandSegment :=
  fold_left
    (fun segments brand_data =>
       let brand := get_brand brand_data in
       let avg_rating := default 0.0%float (get_avg_rating brand_data) in
       match brand with
       | Some name =>
           if truthy_brand brand then segments ++ [segment_brand name avg_rating]
           else segments
       | None => segments
       end)
    brand_ratings [].

(** A member of a plain [Enum] is always true, so an optional category
    filters exactly when it is given. *)
Definition get_brands_by_category (segments : list BrandSegment)
  (price_category : option PriceCategory.t)
  (quality_category : option QualityCategory.t) : list BrandSegment :=
  let filtered := segments in
  let filtered :=
    match price_category with
    | Some c => List.filter (fun s => price_eqb (BrandSegmenter.price_category s) c) filtered
    | None => filtered
    end in
  match quality_category with
  | Some c => List.filter (fun s => quality_eqb (BrandSegmenter.quality_category s) c) filtered
  | None => filtered
  end.

(** One entry of the ["brands"] list of the segmentation summary. *)
Record BrandDetail := mkBrandDetail {
  bd_brand : string;
  bd_price_category : string;
  bd_quality_category : string;
  bd_avg_rating : float;
  bd_price_per_serving : option float;
  bd_protein_content : option Z;
  bd_third_party_tested : bool;
  bd_artificial_sweeteners : bool;
  bd_features : list string
}.

Record SegmentationSummary := mkSegmentationSummary {
  total_brands : Z;
  price_categories : gmap string Z;
  quality_categories : gmap string Z;
  brands : list BrandDetail
}.

Definition create_segmentation_summary (segments : list BrandSegment)
  : SegmentationSummary :=
  let price_counts :=
    fold_left
      (fun counts category =>
         <[price_value category :=
             Py.len (List.filter (fun s => price_eqb (price_category s) category) segments)]>
           counts)
      [PriceCategory.BUDGET; PriceCategory.MID_RANGE; PriceCategory.PREMIUM] ∅ in
  let quality_counts :=
    fold_left
      (fun counts category =>
         <[quality_value category :=
             Py.len (List.filter (fun s => quality_eqb (quality_category s) category) segments)]>
           counts)
      [QualityCategory.BASIC; QualityCategory.STANDARD; QualityCategory.PREMIUM] ∅ in
  let details :=
    fold_left
      (fun acc segment =>
         acc ++ [mkBrandDetail (brand segment)
                   (price_value (price_category segment))
                   (quality_value (quality_category segment))
                   (avg_rating segment) (price_per_serving segment)
                   (protein_content segment) (third_party_tested segment)
                   (artificial_sweeteners segment) (features segment)])
      segments [] in
  mkSegmentationSummary (Py.len segments) price_counts quality_counts details.

Definition find_premium_brands (segments : list BrandSegment) : list BrandSegment :=
  List.filter
    (fun s => quality_eqb (quality_category s) QualityCategory.PREMIUM) segments.

End BrandSegmenter.

(** ** insight_generator.py *)

Module InsightGenerator.

Import BrandSegmenter.

Record BrandInsight := mkBrandInsight {
  insight_brand : string;
  summary : string;
  strengths : list string;
  weaknesses : list string;
  recommendations : list string;
  key_features : list string;
  target_audience : list string
}.

(** [xs.append(x)] under a condition. *)
Definition append_if (cond : bool) (x : string) (xs : list string) : list string :=
  if cond then xs ++ [x] else xs.

(** The optional sentiment argument of the four generators is never read. *)
Definition _generate_summary (segment : BrandSegment)
  (sentiment_data : option SentimentAnalyzer.BrandSentiment) : string :=
  let brand := brand segment in
  let rating := avg_rating segment in
  let summary_parts := [] in
  let summary_parts :=
    match quality_category segment with
    | QualityCategory.PREMIUM => summary_parts ++ [(brand ++ " is a premium protein powder")%string]
    | QualityCategory.STANDARD => summary_parts ++ [(brand ++ " is a solid, reliable protein powder")%string]
    | QualityCategory.BASIC => summary_parts ++ [(brand ++ " is a basic protein powder")%string]
    end in
  let summary_parts :=
    if (4.5 <=? rating)%float then summary_parts ++ ["with excellent customer ratings"]
    else if (4.0 <=? rating)%float then summary_parts ++ ["with good customer ratings"]
    else summary_parts ++ ["with average customer ratings"] in
  let summary_parts :=
    match price_category segment with
    | PriceCategory.BUDGET => summary_parts ++ ["at an affordable price point"]
    | PriceCategory.PREMIUM => summary_parts ++ ["at a premium price point"]
    | PriceCategory.MID_RANGE => summary_parts ++ ["at a mid-range price point"]
    end in
  let summary_parts :=
    append_if (third_party_tested segment)
      "and is third-party tested for quality assurance" summary_parts in
  let summary_parts :=
    append_if (negb (artificial_sweeteners segment))
      "with no artificial sweeteners" summary_parts in
  (Py.join " " summary_parts ++ ".")%string.

Definition _identify_strengths (segment : BrandSegment)
  (sentiment_data : option SentimentAnalyzer.BrandSentiment) : list string :=
  let strengths := [] in
  let strengths :=
    match quality_category segment with
    | QualityCategory.PREMIUM => strengths ++ ["Premium quality and performance"]
    | _ => append_if (4.5 <=? avg_rating segment)%float "High customer satisfaction" strengths
    end in
  let strengths :=
    match price_category segment with
    | PriceCategory.BUDGET => strengths ++ ["Excellent value for money"]
    | _ =>
        append_if
          (Py.truthy_float (price_per_serving segment) &&
           match price_per_serving segment with
           | Some price => (price <? 1.0)%float
           | None => false
           end)
          "Competitive pricing" strengths
    end in
  let strengths := append_if (third_party_tested segment) "Third-party quality testing" strengths in
  let strengths := append_if (negb (artificial_sweeteners segment)) "Clean ingredient profile" strengths in
  let strengths :=
    append_if
      (Py.truthy_int (protein_content segment) &&
       match protein_content segment with
       | Some protein => 25 <=? protein
       | None => false
       end)
      "High protein content per serving" strengths in
  strengths ++ features segment.

Definition _identify_weaknesses (segment : BrandSegment)
  (sentiment_data : option SentimentAnalyzer.BrandSentiment) : list string :=
  let weaknesses := [] in
  let weaknesses :=
    match quality_category segment with
    | QualityCategory.BASIC => weaknesses ++ ["Basic quality level"]
    | _ => weaknesses
    end in
  let weaknesses := append_if (avg_rating segment <? 4.0)%float "Lower customer satisfaction" weaknesses in
  let weaknesses :=
    match price_category segment with
    | PriceCategory.PREMIUM => weaknesses ++ ["Higher price point"]
    | _ => weaknesses
    end in
  let weaknesses := append_if (negb (third_party_tested segment)) "No third-party testing" weaknesses in
  let weaknesses := append_if (artificial_sweeteners segment) "Contains artificial sweeteners" weaknesses in
  append_if
    (Py.truthy_int (protein_content segment) &&
     match protein_content segment with
     | Some protein => protein <? 24
     | None => false
     end)
    "Lower protein content compared to competitors" weaknesses.

Definition _generate_recommendations (segment : BrandSegment)
  (sentiment_data : option SentimentAnalyzer.BrandSentiment) : list string :=
  let recommendations := [] in
  let recommendations :=
    match quality_category segment with
    | QualityCategory.PREMIUM => recommendations ++ ["Ideal for serious athletes and fitness enthusiasts"]
    | QualityCategory.STANDARD => recommendations ++ ["Good choice for regular gym-goers"]
    | QualityCategory.BASIC => recommendations ++ ["Suitable for beginners or casual users"]
    end in
  let recommendations :=
    match price_category segment with
    | PriceCategory.BUDGET => recommendations ++ ["Perfect for budget-conscious consumers"]
    | PriceCategory.PREMIUM => recommendations ++ ["Best for those prioritizing quality over cost"]
    | PriceCategory.MID_RANGE => recommendations
    end in
  let recommendations :=
    append_if (negb (artificial_sweeteners segment))
      "Recommended for those avoiding artificial sweeteners" recommendations in
  let recommendations :=
    append_if (third_party_tested segment)
      "Recommended for athletes requiring quality assurance" recommendations in
  if (4.5 <=? avg_rating segment)%float
  then recommendations ++ ["Highly recommended based on customer feedback"]
  else if (4.0 <=? avg_rating segment)%float
  then recommendations ++ ["Recommended for most users"]
  else recommendations.

(** The de-duplication loop at the end of [_identify_target_audience]: [seen]
    is the Python set, [unique_audience] the list being built. *)
Definition dedup_step (st : gset string * list string) (item : string)
  : gset string * list string :=
  let '(seen, unique_audience) := st in
  if decide (item ∈ seen) then st
  else ({[item]} ∪ seen, unique_audience ++ [item]).

Definition dedup_loop (audience : list string) : list string :=
  snd (fold_left dedup_step audience (∅, [])).

(** The audience collected before the de-duplication loop. *)
Definition audience_candidates (segment : BrandSegment) : list string :=
  let audience := [] in
  let audience :=
    match quality_category segment with
    | QualityCategory.PREMIUM =>
        audience ++ ["Serious athletes"; "Professional bodybuilders"; "Fitness enthusiasts"]
    | QualityCategory.STANDARD =>
        audience ++ ["Regular gym-goers"; "Fitness enthusiasts"; "Health-conscious individuals"]
    | QualityCategory.BASIC =>
        audience ++ ["Beginners"; "Casual users"; "Budget-conscious consumers"]
    end in
  let audience :=
    match price_category segment with
    | PriceCategory.BUDGET => audience ++ ["Budget-conscious consumers"]
    | PriceCategory.PREMIUM => audience ++ ["Premium market consumers"]
    | PriceCategory.MID_RANGE => audience
    end in
  let audience :=
    append_if (negb (artificial_sweeteners segment)) "Health-conscious individuals" audience in
  append_if (third_party_tested segment) "Competitive athletes" audience.

Definition _identify_target_audience (segment : BrandSegment) : list string :=
  dedup_loop (audience_candidates segment).

Definition generate_brand_insight (segment : BrandSegment)
  (sentiment_data : option SentimentAnalyzer.BrandSentiment) : BrandInsight :=
  let brand := brand segment in
  let summary := _generate_summary segment sentiment_data in
  let strengths := _identify_strengths segment sentiment_data in
  let weaknesses := _identify_weaknesses segment sentiment_data in
  let recommendations := _generate_recommendations segment sentiment_data in
  let key_features := features segment in
  let target_audience := _identify_target_audience segment in
  mkBrandInsight brand summary strengths weaknesses recommendations
    key_features target_audience.

(** A value stored in the dict of [generate_comparative_insights]. *)
Inductive insight_value :=
| VNone
| VSegment (segment : BrandSegment)
| VBrands (brands : list string)
| VText (text : string).

#[global] Instance insight_value_inhabited : Inhabited insight_value := populate VNone.

(** Truth value of a stored value: [None], [[]] and [""] are false; a
    dataclass instance is true. *)
Definition truthy (v : insight_value) : bool :=
  match v with
  | VNone => false
  | VSegment _ => true
  | VBrands brands => negb (Nat.eqb (length brands) 0)
  | VText text => negb (String.eqb text "")
  end.

Definition brand_of (v : insight_value) : string :=
  match v with
  | VSegment segment => brand segment
  | _ => ""
  end.

Definition brands_of (v : insight_value) : list string :=
  match v with
  | VBrands brands => brands
  | _ => []
  end.

(** [insights[k]] is read with the total lookup: each key read below is one
    of the seven keys the dict is created with. *)
Definition _generate_comparison_summary (insights : gmap string insight_value) : string :=
  let summary_parts := [] in
  let summary_parts :=
    append_if (truthy (insights !!! "best_value"))
      ("For best value, consider " ++ brand_of (insights !!! "best_value"))%string
      summary_parts in
  let summary_parts :=
    append_if (truthy (insights !!! "highest_quality"))
      ("For highest quality, " ++ brand_of (insights !!! "highest_quality")
       ++ " leads the pack")%string
      summary_parts in
  let summary_parts :=
    append_if (truthy (insights !!! "most_affordable"))
      (brand_of (insights !!! "most_affordable") ++ " is the most affordable option")%string
      summary_parts in
  let summary_parts :=
    append_if (truthy (insights !!! "premium_choice"))
      ("For premium quality, " ++ brand_of (insights !!! "premium_choice")
       ++ " is the top choice")%string
      summary_parts in
  let summary_parts :=
    append_if (truthy (insights !!! "clean_ingredients"))
      ("Brands with clean ingredients: "
       ++ Py.join ", " (brands_of (insights !!! "clean_ingredients")))%string
      summary_parts in
  let summary_parts :=
    append_if (truthy (insights !!! "third_party_tested"))
      ("Third-party tested brands: "
       ++ Py.join ", " (brands_of (insights !!! "third_party_tested")))%string
      summary_parts in
  (Py.join " " summary_parts ++ ".")%string.

(** [s.quality_category in [STANDARD, PREMIUM]]. *)
Definition is_high_quality (s : BrandSegment) : bool :=
  match quality_category s with
  | QualityCategory.STANDARD | QualityCategory.PREMIUM => true
  | QualityCategory.BASIC => false
  end.

Definition is_premium (s : BrandSegment) : bool :=
  match quality_category s with
  | QualityCategory.PREMIUM => true
  | _ => false
  end.

(** [lambda x: x.price_per_serving or float('inf')]. *)
Definition price_key (x : BrandSegment) : float :=
  Py.float_or (price_per_serving x) infinity.

Definition generate_comparative_insights (segments : list BrandSegment)
  : gmap string insight_value :=
  let insights : gmap string insight_value :=
    <["best_value" := VNone]>
    (<["highest_quality" := VNone]>
    (<["most_affordable" := VNone]>
    (<["premium_choice" := VNone]>
    (<["clean_ingredients" := VBrands []]>
    (<["third_party_tested" := VBrands []]>
    (<["comparison_summary" := VText ""]> ∅)))))) in
  match segments with
  | [] => insights
  | first :: others =>
      let high_quality := List.filter is_high_quality segments in
      let insights :=
        match high_quality with
        | [] => insights
        | h :: hs => <["best_value" := VSegment (Py.min_by price_key h hs)]> insights
        end in
      let insights :=
        <["highest_quality" := VSegment (Py.max_by avg_rating first others)]> insights in
      let insights :=
        <["most_affordable" := VSegment (Py.min_by price_key first others)]> insights in
      let premium_brands := List.filter is_premium segments in
      let insights :=
        match premium_brands with
        | [] => insights
        | b :: bs => <["premium_choice" := VSegment (Py.max_by avg_rating b bs)]> insights
        end in
      let insights :=
        <["clean_ingredients" :=
            VBrands (map brand (List.filter (fun s => negb (artificial_sweeteners s)) segments))]>
          insights in
      let insights :=
        <["third_party_tested" :=
            VBrands (map brand (List.filter third_party_tested segments))]> insights in
      <["comparison_summary" := VText (_generate_comparison_summary insights)]> insights
  end.

End InsightGenerator.

(** ** analysis_engine.py: the per-brand loop of [run_full_analysis] *)

Module AnalysisEngine.

Import SentimentAnalyzer.

(** The three methods of [self.sentiment_analyzer] that the loop calls. *)
Record Analyzer := mkAnalyzer {
  extract_statements_about_brand : string -> string -> list string;
  analyze_brand_statements : string -> list string -> BrandSentiment;
  create_rating_summary : BrandSentiment -> RatingRow
}.

(** The analyzer the engine is built with: [SentimentAnalyzer()]. *)
Definition sentiment_analyzer (round : float -> Z -> float) : Analyzer :=
  mkAnalyzer
    (SentimentAnalyzer.extract_statements_about_brand SentimentAnalyzer.__init__)
    (SentimentAnalyzer.analyze_brand_statements SentimentAnalyzer.__init__)
    (SentimentAnalyzer.create_rating_summary round SentimentAnalyzer.__init__).

(** One iteration of [for brand in brands], on the two lists it appends to. *)
Definition brand_step (self_sentiment_analyzer : Analyzer) (transcript : string)
  (acc : list BrandSentiment * list RatingRow) (brand : string)
  : list BrandSentiment * list RatingRow :=
  let '(brand_sentiments, brand_ratings) := acc in
  let statements :=
    extract_statements_about_brand self_sentiment_analyzer transcript brand in
  match statements with
  | [] =>
      let neutral_sentiment :=
        mkBrandSentiment brand [] 0.5%float 3.0%float 0 0 0 in
      (brand_sentiments ++ [neutral_sentiment],
       brand_ratings ++
         [mkRatingRow brand 3.0%float 0.5%float 0 0.0%float 0.0%float 0.0%float []])
  | _ =>
      let sentiment :=
        analyze_brand_statements self_sentiment_analyzer brand statements in
      let rating_summary := create_rating_summary self_sentiment_analyzer sentiment in
      (brand_sentiments ++ [sentiment], brand_ratings ++ [rating_summary])
  end.

Definition brand_loop (self_sentiment_analyzer : Analyzer) (transcript : string)
  (brands : list string) : list BrandSentiment * list RatingRow :=
  fold_left (brand_step self_sentiment_analyzer transcript) brands ([], []).

Import BrandSegmenter InsightGenerator.

(** The summary dict: [{}] on the early exits, the error dict of
    [_create_analysis_summary], or the full summary. *)
Record SummaryFields := mkSummaryFields {
  total_brands_analyzed : Z;
  average_rating : float;
  highest_rated_brand : string * float;
  lowest_rated_brand : string * float;
  budget_brands : Z;
  premium_brands : Z;
  mid_range_brands : Z;
  high_quality_brands : Z;
  basic_quality_brands : Z;
  analysis_timestamp : string
}.

Inductive summary_dict :=
| SummaryEmpty
| SummaryError (message : string)
| Summary (fields : SummaryFields).

Record AnalysisResult := mkAnalysisResult {
  result_brands : list string;
  brand_ratings : list RatingRow;
  brand_sentiments : list BrandSentiment;
  brand_segments : list BrandSegment;
  brand_insights : list BrandInsight;
  comparative_insights : gmap string insight_value;
  result_summary : summary_dict
}.

Definition _create_analysis_summary (round : float -> Z -> float)
  (brands : list string) (brand_ratings : list RatingRow)
  (brand_segments : list BrandSegment) : summary_dict :=
  let total_brands := Py.len brands in
  match brand_ratings with
  | [] => SummaryError "No brand ratings available"
  | first :: others =>
      let avg_rating :=
        (Py.sum_float (map rr_avg_rating brand_ratings)
         / Py.float_of_int (Py.len brand_ratings))%float in
      let highest_rated := Py.max_by rr_avg_rating first others in
      let lowest_rated := Py.min_by rr_avg_rating first others in
      let budget_brands :=
        List.filter
          (fun s => String.eqb (price_value (price_category s)) "budget") brand_segments in
      let premium_brands :=
        List.filter
          (fun s => String.eqb (price_value (price_category s)) "premium") brand_segments in
      let high_quality_brands :=
        List.filter
          (fun s => existsb (String.eqb (quality_value (quality_category s)))
                            ["standard"; "premium"])
          brand_segments in
      Summary
        (mkSummaryFields total_brands (round avg_rating 2)
           (rr_brand highest_rated, rr_avg_rating highest_rated)
           (rr_brand lowest_rated, rr_avg_rating lowest_rated)
           (Py.len budget_brands) (Py.len premium_brands)
           (total_brands - Py.len budget_brands - Py.len premium_brands)
           (Py.len high_quality_brands)
           (total_brands - Py.len high_quality_brands)
           "2024-01-01T00:00:00Z")
  end.

(** [next((s for s in brand_sentiments if s.brand == name), None)]. *)
Definition sentiment_for (brand_sentiments : list BrandSentiment) (name : string)
  : option BrandSentiment :=
  List.find (fun s => String.eqb (SentimentAnalyzer.brand s) name) brand_sentiments.

(** The insight loop: a segment without sentiment record is skipped.  A
    dataclass instance is true, so [if not insight] never skips. *)
Definition insight_loop (brand_sentiments : list BrandSentiment)
  (brand_segments : list BrandSegment) : list BrandInsight :=
  fold_left
    (fun brand_insights segment =>
       match sentiment_for brand_sentiments (BrandSegmenter.brand segment) with
       | None => brand_insights
       | Some sentiment_data =>
           brand_insights ++ [generate_brand_insight segment (Some sentiment_data)]
       end)
    brand_segments [].

(** [run_full_analysis] on a given transcript.  [brands] is what
    [self.brand_extractor.get_unique_brands(transcript)] answers, a call to a
    remote service; [add_known_brands] only updates the extractor. *)
Definition run_full_analysis (round : float -> Z -> float)
  (self_sentiment_analyzer : Analyzer) (brands : list string) (transcript : string)
  : AnalysisResult :=
  match brands with
  | [] => mkAnalysisResult [] [] [] [] [] ∅ SummaryEmpty
  | _ =>
      let '(brand_sentiments, brand_ratings) :=
        brand_loop self_sentiment_analyzer transcript brands in
      match brand_ratings with
      | [] =>
          mkAnalysisResult brands brand_ratings brand_sentiments [] [] ∅ SummaryEmpty
      | _ =>
          let brand_segments := segment_all_brands (map rating_dict brand_ratings) in
          let brand_insights := insight_loop brand_sentiments brand_segments in
          let comparative_insights := generate_comparative_insights brand_segments in
          let summary :=
            _create_analysis_summary round brands brand_ratings brand_segments in
          mkAnalysisResult brands brand_ratings brand_sentiments brand_segments
            brand_insights comparative_insights summary
      end
  end.

End AnalysisEngine.

(** ** brand_extractor.py *)

Module BrandExtractor.

Record BrandMatch := mkBrandMatch {
  brand_name : string;
  start_pos : Z;
  end_pos : Z;
  context : string
}.

(** [s.endswith(suffix)]. *)
Definition endswith (s suffix : string) : bool :=
  (String.length suffix <=? String.length s)%nat &&
  String.eqb (substring (String.length s - String.length suffix) (String.length suffix) s)
             suffix.

(** [s[:-n]] for a positive [n]: all but the last [n] characters, nothing
    when [s] is shorter. *)
Definition without_last (n : nat) (s : string) : string :=
  substring 0 (String.length s - n) s.

Definition suffixes : list string := [" brand"; " protein"; " powder"; " supplement"].

Definition brand_mappings : gmap string string :=
  <["my protein" := "My Protein"]>
  (<["optimum nutrition" := "Optimum Nutrition"]>
  (<["transparent labs" := "Transparent Labs"]> ∅)).

(** One turn of the loop over [suffixes]. *)
Definition strip_suffix (brand_name suffix : string) : string :=
  if endswith (Py.lower brand_name) (Py.lower suffix)
  then without_last (String.length suffix) brand_name
  else brand_name.

Definition _clean_brand_name (brand_name : string) : string :=
  let brand_name := fold_left strip_suffix suffixes brand_name in
  default brand_name (brand_mappings !! Py.lower brand_name).

(** The key of a match: its lower-cased name and [start_pos // 100]. *)
Definition match_key (m : BrandMatch) : string * Z :=
  (Py.lower (brand_name m), start_pos m / 100).

(** One turn of the loop of [_deduplicate_matches]: [seen] is the Python
    set, [unique_matches] the list being built. *)
Definition dedup_step (st : gset (string * Z) * list BrandMatch) (m : BrandMatch)
  : gset (string * Z) * list BrandMatch :=
  let '(seen, unique_matches) := st in
  if decide (match_key m ∈ seen) then st
  else ({[match_key m]} ∪ seen, unique_matches ++ [m]).



End BrandExtractor.

(** ** Reference definitions, written from the specification *)

Module Reference.

(** The number of keywords of a set present as substrings of the lower-cased
    text. *)
Definition present (keywords : list string) (text : string) : Z :=
  Z.of_nat (length (List.filter (fun w => Py.str_in w (Py.lower text)) keywords)).

(** The score as the specification defines it, in exact arithmetic. *)
Definition score (pos neg neu : Z) : Q :=
  let total := pos + neg + neu in
  if total =? 0 then 1 # 2
  else ((inject_Z (pos - neg) / inject_Z total + 1) / 2)%Q.

Definition Qltb (x y : Q) : bool := negb (Qle_bool y x).

Definition label (score : Q) : string :=
  if Qltb (6 # 10) score then "POSITIVE"
  else if Qltb score (4 # 10) then "NEGATIVE"
  else "NEUTRAL".

Definition rating (score : Q) : Z :=
  if Qle_bool (8 # 10) score then 5
  else if Qle_bool (6 # 10) score then 4
  else if Qle_bool (4 # 10) score then 3
  else if Qle_bool (2 # 10) score then 2
  else 1.

(** The rational number a finite binary64 value denotes. *)
Definition Q_of_float (x : float) : Q :=
  match Prim2SF x with
  | S754_finite s m e =>
      ((if s then -1 else 1) * inject_Z (Z.pos m) * Qpower 2 e)%Q
  | _ => 0%Q
  end.

Definition is_finite (x : float) : bool :=
  match Prim2SF x with
  | S754_zero _ | S754_finite _ _ _ => true
  | _ => false
  end.

(** [x] is a finite float within [2^-53] of the rational [q]. *)
Definition close_to (x : float) (q : Q) : bool :=
  is_finite x && Qle_bool (Qabs (Q_of_float x - q)) (1 # 2 ^ 53).

(** Every character of [s] satisfies [P]. *)
Fixpoint all_chars (P : ascii -> bool) (s : string) : bool :=
  match s with
  | EmptyString => true
  | String c s' => P c && all_chars P s'
  end.

(** The sentence-terminating punctuation the specification names: the full
    stop, the exclamation mark and the question mark. *)
Definition sentence_end (c : ascii) : bool :=
  if List.in_dec ascii_dec c ["."; "!"; "?"]%char then true else false.

(** A run of sentence terminators: one or more of [.], [!], [?]. *)
Definition is_run (r : string) : Prop :=
  r <> "" /\ all_chars sentence_end r = true.

Definition terminator_free (p : string) : Prop :=
  all_chars (fun c => negb (sentence_end c)) p = true.

(** The text is empty or begins with a character that is no terminator. *)
Definition begins_free (t : string) : Prop :=
  match t with
  | EmptyString => True
  | String c _ => sentence_end c = false
  end.

(** After a run, the next piece is non-empty unless it is the last one:
    otherwise the run would go on. *)
Definition after_run (pieces : list string) : Prop :=
  match pieces with
  | piece :: _ :: _ => piece <> ""
  | _ => True
  end.

(** [splits text pieces]: [pieces] are the candidate sentences of [text], the
    stretches free of terminators that the maximal runs of terminators
    separate. *)
Inductive splits : string -> list string -> Prop :=
| splits_last (p : string) :
    terminator_free p -> splits p [p]
| splits_run (p r text : string) (pieces : list string) :
    terminator_free p -> is_run r -> splits text pieces -> after_run pieces ->
    splits (p ++ r ++ text)%string (p :: pieces).

(** A sentence is retained iff the brand name, lower-cased and trimmed,
    occurs in the lower-cased trimmed sentence. *)
Definition mentions (brand sentence : string) : bool :=
  Py.str_in (Py.lower (Py.strip brand)) (Py.lower (Py.strip sentence)).

End Reference.

(** ** The result of [analyze_statement] as a function of the three counts *)

Module Counts.

Import SentimentAnalyzer.

Definition score_of (pos neg neu : Z) : float :=
  if pos + neg + neu =? 0 then 0.5%float
  else ((Py.int_truediv (pos - neg) (pos + neg + neu) + 1) / 2)%float.

Definition label_of (score : float) : string :=
  if (0.6 <? score)%float then "POSITIVE"
  else if (score <? 0.4)%float then "NEGATIVE"
  else "NEUTRAL".

Definition result_of (text : string) (pos neg neu : Z) : SentimentResult :=
  let s := score_of pos neg neu in
  mkSentimentResult text (label_of s) s (_score_to_rating s).

(** The integers [0..hi]. *)
Definition upto (hi : nat) : list Z := map Z.of_nat (seq 0 (S hi)).

(** A boolean property holds of every triple of counts that keyword sets of
    the given sizes allow. *)
Definition for_all_counts (npos nneg nneu : nat) (P : Z -> Z -> Z -> bool) : bool :=
  forallb (fun pos =>
    forallb (fun neg =>
      forallb (fun neu => P pos neg neu) (upto nneu))
      (upto nneg))
    (upto npos).

Definition agrees_with_reference (pos neg neu : Z) : bool :=
  let s := score_of pos neg neu in
  let q := Reference.score pos neg neu in
  String.eqb (label_of s) (Reference.label q)
  && (_score_to_rating s =? Reference.rating q)
  && Reference.close_to s q
  && negb ((0.6 <? s)%float && (s <? 0.4)%float).

Definition in_unit_interval (pos neg neu : Z) : bool :=
  let s := score_of pos neg neu in
  (0 <=? s)%float && (s <=? 1)%float
  && Qle_bool 0 (Reference.Q_of_float s) && Qle_bool (Reference.Q_of_float s) 1.

Definition label_matches_rating (pos neg neu : Z) : bool :=
  let s := score_of pos neg neu in
  let l := label_of s in
  let r := _score_to_rating s in
  if String.eqb l "POSITIVE" then (r =? 4) || (r =? 5)
  else if String.eqb l "NEGATIVE" then (r =? 1) || (r =? 2)
  else String.eqb l "NEUTRAL" && ((r =? 3) || (r =? 4)).

End Counts.


(** ** De-duplication and the phrases of the strength rules *)

Module Phrases.

(** The list without its repeated items, each item kept where it is first
    seen. *)
Fixpoint first_seen (l : list string) : list string :=
  match l with
  | [] => []
  | x :: l' => x :: List.filter (fun y => negb (String.eqb y x)) (first_seen l')
  end.

(** The phrases that the rules of [_identify_strengths] can contribute. *)
Definition strength_phrases : list string :=
  [ "Premium quality and performance"; "High customer satisfaction";
    "Excellent value for money"; "Competitive pricing";
    "Third-party quality testing"; "Clean ingredient profile";
    "High protein content per serving" ].

Definition mem (x : string) (l : list string) : bool := existsb (String.eqb x) l.

Definition subset (l k : list string) : bool := forallb (fun x => mem x k) l.

Definition disjoint (l k : list string) : bool := forallb (fun x => negb (mem x k)) l.

Fixpoint nodup (l : list string) : bool :=
  match l with
  | [] => true
  | x :: l' => negb (mem x l') && nodup l'
  end.

End Phrases.

(** ** The order of floats, and the selections the comparison is specified by *)

Module FloatOrder.

(** [x == x]: false of a NaN only. *)
Definition is_number (x : float) : bool := (x =? x)%float.

(** A position in the order of the non-NaN values: the class (infinite,
    finite, zero, by sign), then exponent and mantissa. *)
Definition rank (f : spec_float) : Z * Z * Z :=
  match f with
  | S754_nan => (0, 0, 0)
  | S754_zero _ => (0, 0, 0)
  | S754_infinity true => (-2, 0, 0)
  | S754_infinity false => (2, 0, 0)
  | S754_finite true m e => (-1, - e, - Z.pos m)
  | S754_finite false m e => (1, e, Z.pos m)
  end.

Definition lex_lt (a b : Z * Z * Z) : Prop :=
  a.1.1 < b.1.1 \/
  (a.1.1 = b.1.1 /\ (a.1.2 < b.1.2 \/ (a.1.2 = b.1.2 /\ a.2 < b.2))).

End FloatOrder.

Module Selection.

Import BrandSegmenter.


(** [b] is the first element of [l], in list order, with the least key:
    every element before it has a strictly greater key, no element after it
    has a smaller one. *)
Definition first_min {A : Type} (key : A -> float) (l : list A) (b : A) : Prop :=
  exists pre post,
    l = pre ++ b :: post /\
    (forall s, In s pre -> (key b <? key s)%float = true) /\
    (forall s, In s post -> (key b <=? key s)%float = true).

(** [b] is the first element of [l] with the greatest key. *)
Definition first_max {A : Type} (key : A -> float) (l : list A) (b : A) : Prop :=
  exists pre post,
    l = pre ++ b :: post /\
    (forall s, In s pre -> (key s <? key b)%float = true) /\
    (forall s, In s post -> (key s <=? key b)%float = true).


Definition well_rated (s : BrandSegment) : Prop :=
  FloatOrder.is_number (avg_rating s) = true.

End Selection.

(** ** The label and the rating as integer comparisons on the counts *)

Module IntegerRule.

(** With [d = 5 * (pos - neg)] and [t] the number of hits: the score exceeds
    0.6 when [d > t], is below 0.4 when [d < -t], and reaches 0.8, 0.6, 0.4,
    0.2 when [d] reaches [3t], [t], [-t], [-3t]. *)
Definition label (pos neg neu : Z) : string :=
  let t := pos + neg + neu in
  let d := 5 * (pos - neg) in
  if t =? 0 then "NEUTRAL"
  else if t <? d then "POSITIVE"
  else if d <? - t then "NEGATIVE"
  else "NEUTRAL".

Definition rating (pos neg neu : Z) : Z :=
  let t := pos + neg + neu in
  let d := 5 * (pos - neg) in
  if t =? 0 then 3
  else if 3 * t <=? d then 5
  else if t <=? d then 4
  else if - t <=? d then 3
  else if - (3 * t) <=? d then 2
  else 1.

Definition agrees (pos neg neu : Z) : bool :=
  let s := Counts.score_of pos neg neu in
  String.eqb (Counts.label_of s) (label pos neg neu)
  && (SentimentAnalyzer._score_to_rating s =? rating pos neg neu)
  && (if pos =? neg
      then (s =? 0.5)%float && String.eqb (Counts.label_of s) "NEUTRAL"
           && (SentimentAnalyzer._score_to_rating s =? 3)
      else true).

End IntegerRule.

(** ** The first best element under any strict comparison *)

Module Best.

(** [b] is the first element of [l] that no element beats: the elements
    before it are beaten by it, the elements after it do not beat it.
    [Selection.first_min] and [Selection.first_max] are its instances for
    the two directions of the order on keys. *)
Definition first_best {A : Type} (better no_worse : A -> A -> bool)
  (l : list A) (b : A) : Prop :=
  exists pre post,
    l = pre ++ b :: post /\
    (forall s, In s pre -> better b s = true) /\
    (forall s, In s post -> no_worse b s = true).

End Best.

(** ** What the per-brand loop records for one brand *)

Module PerBrand.

Import SentimentAnalyzer AnalysisEngine.

(** The sentiment and the rating row of one brand: the neutral default when
    no statement mentions it, the aggregate and its summary otherwise. *)
Definition entry (sa : Analyzer) (transcript brand : string)
  : BrandSentiment * RatingRow :=
  match extract_statements_about_brand sa transcript brand with
  | [] =>
      (mkBrandSentiment brand [] 0.5%float 3.0%float 0 0 0,
       mkRatingRow brand 3.0%float 0.5%float 0 0.0%float 0.0%float 0.0%float [])
  | statements =>
      (analyze_brand_statements sa brand statements,
       create_rating_summary sa (analyze_brand_statements sa brand statements))
  end.

End PerBrand.

(** * Properties *)

(** ** Counting keywords *)

Section Counting.

Import SentimentAnalyzer.

Lemma sum_int_from (xs : list Z) (a : Z) :
  fold_left Z.add xs a = a + Py.sum_int xs.
Proof.
  unfold Py.sum_int. revert a.
  induction xs as [|x xs IH]; intros a; cbn [fold_left].
  - lia.
  - rewrite (IH (a + x)), (IH (0 + x)). lia.
Qed.

Lemma sum_int_ones {A : Type} (xs : list A) :
  Py.sum_int (map (fun _ => 1) xs) = Z.of_nat (length xs).
Proof.
  induction xs as [|x xs IH].
  - reflexivity.
  - unfold Py.sum_int in *. cbn [map fold_left length].
    rewrite sum_int_from. unfold Py.sum_int. rewrite IH. lia.
Qed.

Lemma append_cons (c : ascii) (s s' : string) :
  (String c s ++ s')%string = String c (s ++ s')%string.
Proof. reflexivity. Qed.

Lemma prefix_append (w t : string) :
  String.prefix w t = true <-> exists post, t = (w ++ post)%string.
Proof.
  revert t. induction w as [|c w IH]; intros t.
  - split; [intros _; now exists t|intros _; now destruct t].
  - destruct t as [|d t]; [split; [discriminate|intros [post H]; discriminate H]|].
    simpl. destruct (Ascii.ascii_dec c d) as [-> | Hne].
    + rewrite IH. split; intros [post H]; exists post;
        rewrite append_cons in *; congruence.
    + split; [discriminate|]. intros [post H]. rewrite append_cons in H. congruence.
Qed.

(** [w in t] holds exactly when [t] is some text, then [w], then some text. *)
Lemma str_in_substring (w t : string) :
  Py.str_in w t = true <-> exists pre post, t = (pre ++ w ++ post)%string.
Proof.
  induction t as [|d t IH]; cbn [Py.str_in]; rewrite orb_true_iff, prefix_append.
  - split.
    + intros [[post H] | H]; [|discriminate H]. now exists "", post.
    + intros (pre & post & H). left. destruct pre; [now exists post|discriminate H].
  - rewrite IH. split.
    + intros [[post H] | (pre & post & H)].
      * now exists "", post.
      * exists (String d pre), post. rewrite append_cons. now rewrite H.
    + intros (pre & post & H). destruct pre as [|c pre].
      * left. now exists post.
      * right. exists pre, post. rewrite append_cons in H. congruence.
Qed.

Lemma keyword_hits_present (keywords : list string) (text : string) :
  keyword_hits keywords (Py.lower text) = Reference.present keywords text.
Proof. unfold keyword_hits, Reference.present. apply sum_int_ones. Qed.

Lemma present_bounds (keywords : list string) (text : string) :
  0 <= Reference.present keywords text <= Z.of_nat (length keywords).
Proof.
  unfold Reference.present. split; [lia|].
  apply Nat2Z.inj_le, List.filter_length_le.
Qed.

Lemma upto_forallb (P : Z -> bool) (hi : nat) :
  forallb P (Counts.upto hi) = true ->
  forall z, 0 <= z <= Z.of_nat hi -> P z = true.
Proof.
  intros H z Hz. rewrite forallb_forall in H. apply H.
  unfold Counts.upto. apply in_map_iff. exists (Z.to_nat z). split; [lia|].
  apply in_seq. lia.
Qed.

Lemma for_all_counts_spec (npos nneg nneu : nat) (P : Z -> Z -> Z -> bool) :
  Counts.for_all_counts npos nneg nneu P = true ->
  forall pos neg neu,
    0 <= pos <= Z.of_nat npos -> 0 <= neg <= Z.of_nat nneg ->
    0 <= neu <= Z.of_nat nneu ->
    P pos neg neu = true.
Proof.
  intros H pos neg neu Hpos Hneg Hneu. unfold Counts.for_all_counts in H.
  pose proof (upto_forallb _ _ H _ Hpos) as Hp. cbv beta in Hp.
  pose proof (upto_forallb _ _ Hp _ Hneg) as Hn. cbv beta in Hn.
  exact (upto_forallb _ _ Hn _ Hneu).
Qed.

(** [analyze_statement] reads the text only through the three counts. *)
Lemma analyze_statement_counts (self : SentimentAnalyzer.t) (text : string) :
  analyze_statement self text =
  Counts.result_of text
    (Reference.present (positive_keywords self) text)
    (Reference.present (negative_keywords self) text)
    (Reference.present (neutral_keywords self) text).
Proof.
  unfold analyze_statement, Counts.result_of. cbv zeta.
  rewrite !keyword_hits_present. reflexivity.
Qed.

(** A property checked on all counts holds of the result on every text. *)
Lemma for_all_texts (P : Z -> Z -> Z -> bool) (Q : SentimentResult -> Prop) :
  Counts.for_all_counts 17 16 10 P = true ->
  (forall text pos neg neu,
     P pos neg neu = true -> Q (Counts.result_of text pos neg neu)) ->
  forall text, Q (analyze_statement __init__ text).
Proof.
  intros HP HQ text. rewrite analyze_statement_counts. apply HQ.
  apply (for_all_counts_spec _ _ _ _ HP); apply present_bounds.
Qed.

End Counting.

(** ** Per-statement scoring *)

Section Scoring.

Import SentimentAnalyzer.

(** Replaces [analyze_statement __init__ text] by its value on three counts
    [pos], [neg], [neu] about which only the checked fact [H] is known. *)
Ltac on_counts text check pos neg neu H :=
  rewrite ?(analyze_statement_counts __init__ text);
  pose proof (for_all_counts_spec 17 16 10 check ltac:(vm_compute; reflexivity)
                _ _ _
                (present_bounds (positive_keywords __init__) text)
                (present_bounds (negative_keywords __init__) text)
                (present_bounds (neutral_keywords __init__) text)) as H;
  revert H;
  generalize (Reference.present (positive_keywords __init__) text)
             (Reference.present (negative_keywords __init__) text)
             (Reference.present (neutral_keywords __init__) text);
  intros pos neg neu H.

(** C1.  For every text, [analyze_statement] returns the text with the score,
    label and star rating of the reference definition.  With [pos], [neg] and
    [neu] the numbers of keywords of the three sets present in the lower-cased
    text, the score is [0.5] when their sum is zero and otherwise the float
    [((pos - neg) / total + 1) / 2]; the label is POSITIVE iff the score
    exceeds 0.6, NEGATIVE iff it is below 0.4 and NEUTRAL otherwise, so that
    0.4 and 0.6 themselves are NEUTRAL; the rating follows the bands
    0.8, 0.6, 0.4, 0.2.  The float computation loses nothing: the score is
    within [2^-53] of the exact rational value, and label and rating are
    those that exact arithmetic assigns. *)
Theorem analyze_statement_reference (text : string) :
  let pos := Reference.present (positive_keywords __init__) text in
  let neg := Reference.present (negative_keywords __init__) text in
  let neu := Reference.present (neutral_keywords __init__) text in
  let total := pos + neg + neu in
  let r := analyze_statement __init__ text in
  let q := Reference.score pos neg neu in
  SentimentAnalyzer.text r = text /\
  score r = (if (total =? 0)%Z then 0.5
             else (Py.int_truediv (pos - neg) total + 1) / 2)%float /\
  Reference.close_to (score r) q = true /\
  label r = Reference.label q /\
  rating r = Reference.rating q /\
  (label r = "POSITIVE" <-> (0.6 <? score r)%float = true) /\
  (label r = "NEGATIVE" <-> (score r <? 0.4)%float = true) /\
  (label r = "NEUTRAL" <->
     (0.6 <? score r)%float = false /\ (score r <? 0.4)%float = false) /\
  rating r = (if (0.8 <=? score r)%float then 5
              else if (0.6 <=? score r)%float then 4
              else if (0.4 <=? score r)%float then 3
              else if (0.2 <=? score r)%float then 2
              else 1) /\
  Counts.label_of 0.4 = "NEUTRAL" /\ Counts.label_of 0.6 = "NEUTRAL".
Proof.
  cbv zeta.
  on_counts text Counts.agrees_with_reference pos neg neu Hagree.
  unfold Counts.agrees_with_reference in Hagree. cbv zeta in Hagree.
  unfold Counts.result_of. cbv zeta.
  cbn [SentimentAnalyzer.text score label rating].
  change (if pos + neg + neu =? 0 then 0.5%float
          else ((Py.int_truediv (pos - neg) (pos + neg + neu) + 1) / 2)%float)
    with (Counts.score_of pos neg neu).
  revert Hagree.
  generalize (Reference.score pos neg neu), (Counts.score_of pos neg neu).
  intros q s Hagree.
  apply andb_prop in Hagree as [Hagree Hexcl].
  apply andb_prop in Hagree as [Hagree Hclose].
  apply andb_prop in Hagree as [Hlabel Hrating].
  apply String.eqb_eq in Hlabel. apply Z.eqb_eq in Hrating.
  split; [reflexivity|]. split; [reflexivity|].
  split; [exact Hclose|]. split; [exact Hlabel|]. split; [exact Hrating|].
  clear Hlabel Hrating Hclose.
  split; [|split; [|split; [|split; [reflexivity|split; reflexivity]]]];
    unfold Counts.label_of;
    destruct (0.6 <? s)%float, (s <? 0.4)%float;
    try discriminate Hexcl;
    split; try discriminate; try reflexivity;
    try (intros [? ?]; discriminate); try (intros _; split; reflexivity).
Qed.

(** C4.  For every text, with no precondition, the score of
    [analyze_statement] lies in [[0,1]] (as a float comparison, hence it is
    not a NaN, and as the rational it denotes) and the rating is one of
    1, 2, 3, 4, 5. *)
Theorem analyze_statement_ranges (text : string) :
  (0 <=? score (analyze_statement __init__ text))%float = true /\
  (score (analyze_statement __init__ text) <=? 1)%float = true /\
  (0 <= Reference.Q_of_float (score (analyze_statement __init__ text)) <= 1)%Q /\
  In (rating (analyze_statement __init__ text)) [1; 2; 3; 4; 5].
Proof.
  on_counts text Counts.in_unit_interval pos neg neu H.
  unfold Counts.in_unit_interval in H. cbv zeta in H.
  unfold Counts.result_of. cbv zeta. cbn [score rating].
  revert H. generalize (Counts.score_of pos neg neu). intros s H.
  apply andb_prop in H as [H Hq1]. apply andb_prop in H as [H Hq0].
  apply andb_prop in H as [H0 H1].
  apply Qle_bool_iff in Hq0, Hq1.
  repeat split; try assumption.
  unfold _score_to_rating. cbn [In].
  repeat match goal with |- context [if ?b then _ else _] => destruct b end; auto 6.
Qed.

(** C10.  For every text the label and the rating of [analyze_statement]
    fit together: POSITIVE comes with 4 or 5 stars, NEGATIVE with 1 or 2,
    NEUTRAL with 3 or 4.  A score of exactly 0.6 is labelled NEUTRAL and
    rated 4 stars, and some text has that score, so NEUTRAL does not imply
    3 stars. *)
Theorem label_rating_consistent (text : string) :
  let r := analyze_statement __init__ text in
  (label r = "POSITIVE" -> rating r = 4 \/ rating r = 5) /\
  (label r = "NEGATIVE" -> rating r = 1 \/ rating r = 2) /\
  (label r = "NEUTRAL" -> rating r = 3 \/ rating r = 4) /\
  (Counts.label_of 0.6 = "NEUTRAL" /\ _score_to_rating 0.6 = 4) /\
  (exists text0,
     score (analyze_statement __init__ text0) = 0.6%float /\
     label (analyze_statement __init__ text0) = "NEUTRAL" /\
     rating (analyze_statement __init__ text0) = 4).
Proof.
  cbv zeta.
  assert (Hor : forall x a b : Z, (x =? a) || (x =? b) = true -> x = a \/ x = b)
    by (intros x a b Hab; apply orb_prop in Hab as [?%Z.eqb_eq | ?%Z.eqb_eq]; auto).
  split; [|split; [|split; [|split]]].
  4: split; reflexivity.
  4: exists "good great best bad poor"; repeat split; vm_compute; reflexivity.
  all: on_counts text Counts.label_matches_rating pos neg neu H;
    unfold Counts.label_matches_rating in H; cbv zeta in H;
    unfold Counts.result_of; cbv zeta; cbn [label rating];
    revert H; generalize (Counts.score_of pos neg neu); intros s H;
    intros Hl; rewrite Hl in H.
  - apply Hor, H.
  - apply Hor, H.
  - apply andb_prop in H as [_ H]. apply Hor, H.
Qed.

End Scoring.

(** ** Per-brand aggregation *)

Section Aggregation.

Import SentimentAnalyzer.

(** A loop that appends one item per element builds the mapped list. *)
Lemma append_loop_map {A B : Type} (f : A -> B) (xs : list A) (acc : list B) :
  fold_left (fun acc x => acc ++ [f x]) xs acc = acc ++ map f xs.
Proof.
  revert acc. induction xs as [|x xs IH]; intros acc; cbn [fold_left map].
  - now rewrite app_nil_r.
  - rewrite IH, <- app_assoc. reflexivity.
Qed.

Lemma analyze_statement_label (self : SentimentAnalyzer.t) (text : string) :
  label (analyze_statement self text) = "POSITIVE" \/
  label (analyze_statement self text) = "NEGATIVE" \/
  label (analyze_statement self text) = "NEUTRAL".
Proof.
  rewrite analyze_statement_counts. unfold Counts.result_of, Counts.label_of.
  cbv zeta. cbn [label].
  destruct (0.6 <? _)%float; [auto|]. destruct (_ <? 0.4)%float; auto.
Qed.

Lemma label_count_cons (l : string) (r : SentimentResult) (rs : list SentimentResult) :
  label_count l (r :: rs) =
  (if String.eqb (label r) l then 1 else 0) + label_count l rs.
Proof.
  unfold label_count. rewrite !sum_int_ones. cbn [List.filter].
  destruct (String.eqb (label r) l); cbn [length]; lia.
Qed.

(** The three tallies partition any list of results whose labels are among
    the three label strings. *)
Lemma label_counts_partition (rs : list SentimentResult) :
  Forall (fun r => label r = "POSITIVE" \/ label r = "NEGATIVE" \/ label r = "NEUTRAL") rs ->
  label_count "POSITIVE" rs + label_count "NEGATIVE" rs + label_count "NEUTRAL" rs
  = Py.len rs.
Proof.
  induction 1 as [|r rs Hr _ IH].
  - reflexivity.
  - rewrite !label_count_cons. unfold Py.len in *. cbn [length].
    destruct Hr as [-> | [-> | ->]]; cbn; lia.
Qed.

(** C5.  For every brand name and every list of statement strings (and
    whatever the keyword sets), the three counts of the [BrandSentiment]
    that [analyze_brand_statements] returns add up to the number of
    statements, which is also the length of its [statements] field. *)
Theorem brand_counts_sum_to_len (self : SentimentAnalyzer.t) (brand : string)
  (statements : list string) :
  let bs := analyze_brand_statements self brand statements in
  positive_count bs + negative_count bs + neutral_count bs = Py.len statements /\
  Py.len (SentimentAnalyzer.statements bs) = Py.len statements.
Proof.
  cbv zeta. unfold analyze_brand_statements. cbv zeta.
  rewrite append_loop_map. cbn [app].
  destruct statements as [|s ss].
  - split; reflexivity.
  - set (rs := map (analyze_statement self) (s :: ss)).
    assert (Hlen : Py.len rs = Py.len (s :: ss))
      by (unfold Py.len, rs; now rewrite length_map).
    assert (Hlab : Forall (fun r => label r = "POSITIVE" \/ label r = "NEGATIVE"
                                    \/ label r = "NEUTRAL") rs).
    { unfold rs. apply List.Forall_forall. intros r Hin.
      apply in_map_iff in Hin as [t [<- _]]. apply analyze_statement_label. }
    clearbody rs. destruct rs as [|r rs'].
    + discriminate Hlen.
    + cbn [positive_count negative_count neutral_count SentimentAnalyzer.statements].
      split; [|exact Hlen]. rewrite <- Hlen. now apply label_counts_partition.
Qed.

End Aggregation.

(** ** Statement extraction *)

Section Extraction.

Import SentimentAnalyzer.

Lemma isspace_lower_char (c : ascii) : Py.isspace (Py.lower_char c) = Py.isspace c.
Proof. destruct c as [[] [] [] [] [] [] [] []]; reflexivity. Qed.

Lemma lstrip_lower (s : string) : Py.lstrip (Py.lower s) = Py.lower (Py.lstrip s).
Proof.
  induction s as [|c s IH]; cbn [Py.lower Py.lstrip]; [reflexivity|].
  rewrite isspace_lower_char. destruct (Py.isspace c); [exact IH|reflexivity].
Qed.

Lemma rstrip_lower (s : string) : Py.rstrip (Py.lower s) = Py.lower (Py.rstrip s).
Proof.
  induction s as [|c s IH]; cbn [Py.lower Py.rstrip]; [reflexivity|].
  rewrite IH, isspace_lower_char.
  destruct (Py.rstrip s); cbn [Py.lower]; [|reflexivity].
  destruct (Py.isspace c); reflexivity.
Qed.

(** Trimming and lower-casing commute. *)
Lemma strip_lower (s : string) : Py.strip (Py.lower s) = Py.lower (Py.strip s).
Proof. unfold Py.strip. now rewrite lstrip_lower, rstrip_lower. Qed.

(** A loop that appends [g x] for the elements that pass [f]. *)
Lemma filter_loop_map {A B : Type} (f : A -> bool) (g : A -> B) (xs : list A)
  (acc : list B) :
  fold_left (fun acc x => if f x then acc ++ [g x] else acc) xs acc
  = acc ++ map g (List.filter f xs).
Proof.
  revert acc. induction xs as [|x xs IH]; intros acc; cbn [fold_left List.filter].
  - now rewrite app_nil_r.
  - rewrite IH. destruct (f x); cbn [map]; [|reflexivity].
    now rewrite <- app_assoc.
Qed.

(** The character class of the source's pattern is the punctuation the
    specification names. *)
Lemma sentence_end_is_terminator (c : ascii) :
  Reference.sentence_end c = Py.is_terminator c.
Proof. destruct c as [[] [] [] [] [] [] [] []]; reflexivity. Qed.

Lemma all_chars_ext (P Q : ascii -> bool) (s : string) :
  (forall c, P c = Q c) -> Reference.all_chars P s = Reference.all_chars Q s.
Proof.
  intros H. induction s as [|c s IH]; cbn [Reference.all_chars]; [reflexivity|].
  now rewrite H, IH.
Qed.

Lemma terminator_free_code (p : string) :
  Reference.all_chars (fun c => negb (Reference.sentence_end c)) p
  = Reference.all_chars (fun c => negb (Py.is_terminator c)) p.
Proof. apply all_chars_ext. intros c. now rewrite sentence_end_is_terminator. Qed.

Lemma splits_cons (c : ascii) (s p : string) (pieces : list string) :
  Py.is_terminator c = false ->
  Reference.splits s (p :: pieces) ->
  Reference.splits (String c s) (String c p :: pieces).
Proof.
  intros Hc H. inversion H as [p0 Hp | p0 r text ps Hp Hr Hs Ha]; subst.
  - apply Reference.splits_last. unfold Reference.terminator_free in *.
    cbn [Reference.all_chars]. now rewrite sentence_end_is_terminator, Hc, Hp.
  - change (String c (p ++ r ++ text)%string)
      with ((String c p) ++ r ++ text)%string.
    apply Reference.splits_run; try assumption.
    unfold Reference.terminator_free in *.
    cbn [Reference.all_chars]. now rewrite sentence_end_is_terminator, Hc, Hp.
Qed.

(** Both entry points of the splitter: outside a run the result splits the
    text; inside a run, the rest of the run is skipped and the result splits
    what follows it. *)
Lemma re_split_from_splits (s : string) :
  Reference.splits s (Py.re_split_from false s) /\
  exists r s',
    s = (r ++ s')%string /\ Reference.all_chars Reference.sentence_end r = true /\
    Py.re_split_from true s = Py.re_split_from false s' /\
    Reference.splits s' (Py.re_split_from false s') /\
    Reference.after_run (Py.re_split_from false s').
Proof.
  induction s as [|c s [IHsplit (r & s' & Hs & Hr & Htrue & Hs' & Hafter)]].
  - split; [now apply Reference.splits_last|].
    exists "", "". repeat split. now apply Reference.splits_last.
  - cbn [Py.re_split_from]. destruct (Py.is_terminator c) eqn:Hc.
    + split.
      * rewrite Htrue. rewrite Hs at 1.
        change (String c (r ++ s')%string) with ("" ++ String c r ++ s')%string.
        apply Reference.splits_run; try assumption; [reflexivity|].
        split; [discriminate|]. cbn [Reference.all_chars].
        now rewrite sentence_end_is_terminator, Hc, Hr.
      * exists (String c r), s'. rewrite Hs at 1. repeat split; try assumption.
        cbn [Reference.all_chars]. now rewrite sentence_end_is_terminator, Hc, Hr.
    + assert (Hnew : Reference.splits (String c s)
                (match Py.re_split_from false s with
                 | piece :: pieces => String c piece :: pieces
                 | [] => [String c ""]
                 end) /\
              Reference.after_run
                (match Py.re_split_from false s with
                 | piece :: pieces => String c piece :: pieces
                 | [] => [String c ""]
                 end)).
      { destruct (Py.re_split_from false s) as [|p ps].
        - inversion IHsplit.
        - split; [now apply splits_cons|].
          destruct ps; [exact I|discriminate]. }
      split; [apply Hnew|].
      exists "", (String c s). cbn [Py.re_split_from]. rewrite Hc.
      repeat split; apply Hnew.
Qed.

Lemma all_chars_app (P : ascii -> bool) (a b : string) :
  Reference.all_chars P (a ++ b)%string
  = Reference.all_chars P a && Reference.all_chars P b.
Proof.
  induction a as [|c a IH]; [reflexivity|].
  rewrite append_cons. cbn [Reference.all_chars]. now rewrite IH, andb_assoc.
Qed.

(** Two readings of a text as a terminator-free piece followed by a rest that
    begins with a terminator agree. *)
Lemma piece_unique (p p' u u' : string) (c c' : ascii) :
  Reference.terminator_free p -> Reference.terminator_free p' ->
  Reference.sentence_end c = true -> Reference.sentence_end c' = true ->
  (p ++ String c u)%string = (p' ++ String c' u')%string ->
  p = p' /\ String c u = String c' u'.
Proof.
  unfold Reference.terminator_free. intros Hp Hp' Hc Hc'.
  revert p' Hp'. induction p as [|a q IH]; intros [|d q'] Hp' E.
  - split; [reflexivity|exact E].
  - rewrite append_cons in E. cbn [append] in E. injection E as -> _.
    cbn [Reference.all_chars] in Hp'. rewrite Hc in Hp'. discriminate Hp'.
  - rewrite append_cons in E. cbn [append] in E. injection E as -> _.
    cbn [Reference.all_chars] in Hp. rewrite Hc' in Hp. discriminate Hp.
  - rewrite !append_cons in E. injection E as -> E.
    cbn [Reference.all_chars] in Hp, Hp'.
    apply andb_prop in Hp as [_ Hp]. apply andb_prop in Hp' as [_ Hp'].
    destruct (IH Hp q' Hp' E) as [-> E']. split; [reflexivity|exact E'].
Qed.

Lemma begins_free_app (p rest : string) :
  p <> "" -> Reference.terminator_free p -> Reference.begins_free (p ++ rest)%string.
Proof.
  destruct p as [|c p]; [congruence|]. intros _. unfold Reference.terminator_free.
  rewrite append_cons. cbn [Reference.all_chars Reference.begins_free].
  intros [H _]%andb_prop. now apply negb_true_iff.
Qed.

Lemma splits_nonempty (text : string) (pieces : list string) :
  Reference.splits text pieces -> pieces <> [].
Proof. intros []; discriminate. Qed.

Lemma splits_begins_free (text : string) (pieces : list string) :
  Reference.splits text pieces -> Reference.after_run pieces -> Reference.begins_free text.
Proof.
  intros [p Hp | p r rest ps Hp Hr Hs Ha] Hafter.
  - destruct p as [|c p]; [exact I|]. unfold Reference.terminator_free in Hp.
    cbn [Reference.all_chars] in Hp. apply andb_prop in Hp as [Hc _].
    now apply negb_true_iff.
  - apply begins_free_app; [|exact Hp].
    destruct ps as [|q qs]; [now apply splits_nonempty in Hs|exact Hafter].
Qed.

(** Two readings of a text as a run followed by a rest that begins with no
    terminator agree: the run is maximal. *)
Lemma run_unique (r r' t t' : string) :
  Reference.all_chars Reference.sentence_end r = true ->
  Reference.all_chars Reference.sentence_end r' = true ->
  Reference.begins_free t -> Reference.begins_free t' ->
  (r ++ t)%string = (r' ++ t')%string -> r = r' /\ t = t'.
Proof.
  intros Hr Hr' Ht Ht'. revert r' Hr'.
  induction r as [|a q IH]; intros [|d q'] Hr' E.
  - split; [reflexivity|exact E].
  - change (t = (String d q' ++ t')%string) in E. rewrite append_cons in E. subst t.
    cbn [Reference.begins_free] in Ht. cbn [Reference.all_chars] in Hr'.
    apply andb_prop in Hr' as [Hd _]. congruence.
  - rewrite append_cons in E. change (String a (q ++ t)%string = t') in E. subst t'.
    cbn [Reference.begins_free] in Ht'. cbn [Reference.all_chars] in Hr.
    apply andb_prop in Hr as [Ha _]. congruence.
  - rewrite !append_cons in E. injection E as -> E.
    cbn [Reference.all_chars] in Hr, Hr'.
    apply andb_prop in Hr as [_ Hr]. apply andb_prop in Hr' as [_ Hr'].
    destruct (IH Hr q' Hr' E) as [-> ->]. split; reflexivity.
Qed.

(** A text has one list of candidate sentences only. *)
Lemma splits_unique (text : string) (pieces pieces' : list string) :
  Reference.splits text pieces -> Reference.splits text pieces' -> pieces = pieces'.
Proof.
  intros H. revert pieces'.
  induction H as [p Hp | p r rest ps Hp [Hne Hr] Hs IH Ha]; intros pieces' H'.
  - inversion H' as [p' Hp' | p' r' rest' ps' Hp' [Hne' Hr'] Hs' Ha' E]; [reflexivity|].
    exfalso. subst p. unfold Reference.terminator_free in Hp.
    rewrite !all_chars_app in Hp.
    apply andb_prop in Hp as [_ [Hfree _]%andb_prop].
    destruct r' as [|c r']; [congruence|]. cbn [Reference.all_chars] in Hr', Hfree.
    apply andb_prop in Hr' as [Hc _]. rewrite Hc in Hfree. discriminate Hfree.
  - inversion H' as [p' Hp' E | p' r' rest' ps' Hp' [Hne' Hr'] Hs' Ha' E].
    + exfalso. subst p'. unfold Reference.terminator_free in Hp'.
      rewrite !all_chars_app in Hp'.
      apply andb_prop in Hp' as [_ [Hfree _]%andb_prop].
      destruct r as [|c r]; [congruence|]. cbn [Reference.all_chars] in Hr, Hfree.
      apply andb_prop in Hr as [Hc _]. rewrite Hc in Hfree. discriminate Hfree.
    + subst pieces'.
      destruct r as [|c r]; [congruence|]. destruct r' as [|c' r']; [congruence|].
      pose proof Hr as Hc. pose proof Hr' as Hc'.
      cbn [Reference.all_chars] in Hc, Hc'.
      apply andb_prop in Hc as [Hc _]. apply andb_prop in Hc' as [Hc' _].
      rewrite !append_cons in E.
      destruct (piece_unique _ _ _ _ _ _ Hp' Hp Hc' Hc E) as [-> E'].
      rewrite <- !append_cons in E'.
      destruct (run_unique _ _ _ _ Hr' Hr
                  (splits_begins_free _ _ Hs' Ha') (splits_begins_free _ _ Hs Ha) E')
        as [_ ->].
      f_equal. now apply IH.
Qed.

(** C7.  For every transcript and brand name, [extract_statements_about_brand]
    splits the transcript at the maximal runs of [.], [!], [?]: the pieces it
    works on are the one list of candidate sentences that the specification's
    punctuation determines.  It returns, in transcript order, exactly the
    candidate sentences, trimmed and in their original casing, whose
    lower-cased trimmed form contains the lower-cased trimmed brand name; on
    "Kirkland is great. Ghost is bad?! I like KIRKLAND" it finds the first
    and the third sentence for " kirkland" and the second for "Ghost".  The
    result may be empty, also for a brand name that is not.  Nothing here
    needs the brand name to be non-empty. *)
Theorem extract_statements_reference (self : SentimentAnalyzer.t) (text brand : string) :
  Reference.splits text (Py.re_split text) /\
  (forall pieces, Reference.splits text pieces -> pieces = Py.re_split text) /\
  extract_statements_about_brand self text brand
  = map Py.strip (List.filter (Reference.mentions brand) (Py.re_split text)) /\
  extract_statements_about_brand self
    "Kirkland is great. Ghost is bad?! I like KIRKLAND" " kirkland"
  = ["Kirkland is great"; "I like KIRKLAND"] /\
  extract_statements_about_brand self
    "Kirkland is great. Ghost is bad?! I like KIRKLAND" "Ghost"
  = ["Ghost is bad"] /\
  exists text0 brand0,
    brand0 <> "" /\ extract_statements_about_brand self text0 brand0 = [].
Proof.
  split; [apply re_split_from_splits|]. split.
  { intros pieces H. apply (splits_unique text); [exact H|apply re_split_from_splits]. }
  split.
  - unfold extract_statements_about_brand. cbv zeta.
    rewrite (filter_loop_map
               (fun sentence =>
                  Py.str_in (Py.strip (Py.lower brand)) (Py.strip (Py.lower sentence)))
               Py.strip).
    cbn [app]. f_equal. apply List.filter_ext. intros sentence.
    unfold Reference.mentions. now rewrite !strip_lower.
  - split; [reflexivity|]. split; [reflexivity|].
    exists "Isopure is smooth. I like it!", "Kirkland". split; [discriminate|].
    reflexivity.
Qed.

End Extraction.

(** ** Segmentation thresholds *)

Section Thresholds.

Import BrandSegmenter.

(** C2.  Price categorization is the ordered table with inclusive upper
    bounds: BUDGET up to 0.90, else MID_RANGE up to 1.20, else PREMIUM; an
    unknown price is MID_RANGE before any threshold is tested.  Quality is
    BASIC up to 4.0, else STANDARD up to 4.5, else PREMIUM.  In particular
    0.90 is BUDGET, 0.901 is MID_RANGE, 4.5 is STANDARD and 4.501 is
    PREMIUM. *)
Theorem categorize_by_thresholds :
  _categorize_price None = PriceCategory.MID_RANGE /\
  (forall price : float,
     _categorize_price (Some price) =
     if (price <=? 0.90)%float then PriceCategory.BUDGET
     else if (price <=? 1.20)%float then PriceCategory.MID_RANGE
     else PriceCategory.PREMIUM) /\
  (forall avg_rating : float,
     _categorize_quality avg_rating =
     if (avg_rating <=? 4.0)%float then QualityCategory.BASIC
     else if (avg_rating <=? 4.5)%float then QualityCategory.STANDARD
     else QualityCategory.PREMIUM) /\
  _categorize_price (Some 0.90%float) = PriceCategory.BUDGET /\
  _categorize_price (Some 0.901%float) = PriceCategory.MID_RANGE /\
  _categorize_quality 4.5%float = QualityCategory.STANDARD /\
  _categorize_quality 4.501%float = QualityCategory.PREMIUM.
Proof.
  split; [reflexivity|]. split; [|split].
  - intros price. unfold _categorize_price, price_thresholds.
    cbn [first_within].
    destruct (price <=? 0.90)%float; [reflexivity|].
    destruct (price <=? 1.20)%float; [reflexivity|].
    destruct (price <=? infinity)%float; reflexivity.
  - intros avg_rating. unfold _categorize_quality, quality_thresholds.
    cbn [first_within].
    destruct (avg_rating <=? 4.0)%float; [reflexivity|].
    destruct (avg_rating <=? 4.5)%float; [reflexivity|].
    destruct (avg_rating <=? infinity)%float; reflexivity.
  - repeat split; vm_compute; reflexivity.
Qed.

End Thresholds.

(** ** The two zero-statement defaults *)

Section ZeroStatements.

Import SentimentAnalyzer AnalysisEngine.

(** What the orchestrator records for a brand without statements. *)
Let neutral_sentiment (brand : string) : BrandSentiment :=
  mkBrandSentiment brand [] 0.5%float 3.0%float 0 0 0.

Let neutral_row (brand : string) : RatingRow :=
  mkRatingRow brand 3.0%float 0.5%float 0 0.0%float 0.0%float 0.0%float [].

(** The loop only ever appends to its two lists. *)
Lemma brand_step_extends (sa : Analyzer) (transcript : string)
  (acc : list BrandSentiment * list RatingRow) (brand : string) :
  exists s r,
    brand_step sa transcript acc brand = (fst acc ++ [s], snd acc ++ [r]).
Proof.
  destruct acc as [ss rs]. unfold brand_step.
  destruct (extract_statements_about_brand sa transcript brand); eauto.
Qed.

Lemma brand_loop_keeps (sa : Analyzer) (transcript : string) (brands : list string)
  (acc : list BrandSentiment * list RatingRow) (s : BrandSentiment) (r : RatingRow) :
  In s (fst acc) -> In r (snd acc) ->
  In s (fst (fold_left (brand_step sa transcript) brands acc)) /\
  In r (snd (fold_left (brand_step sa transcript) brands acc)).
Proof.
  revert acc. induction brands as [|b bs IH]; intros acc Hs Hr; cbn [fold_left].
  - now split.
  - destruct (brand_step_extends sa transcript acc b) as (s' & r' & ->).
    apply IH; cbn [fst snd]; apply in_or_app; now left.
Qed.

(** C3.  The two zero-statement defaults are distinct policies of two
    layers.  On an empty statement list [analyze_brand_statements] returns
    no statements, zero counts and [avg_score = avg_rating = 0.0].  The
    orchestrator, for a brand whose extraction is empty, appends the neutral
    sentiment ([avg_score = 0.5], [avg_rating = 3.0], zero counts, no
    statements) and the row with [avg_rating = 3.0], [avg_score = 0.5],
    [total_statements = 0] and all percentages [0.0].  It does so whatever
    the analyzer's aggregator and summary functions are, so neither is
    consulted; and the value differs from the aggregator's. *)
Theorem zero_statement_defaults (sa : Analyzer) (transcript brand : string)
  (acc : list BrandSentiment * list RatingRow) (brands : list string) :
  extract_statements_about_brand sa transcript brand = [] ->
  (forall self, SentimentAnalyzer.analyze_brand_statements self brand []
                = mkBrandSentiment brand [] 0.0%float 0.0%float 0 0 0) /\
  brand_step sa transcript acc brand
  = (fst acc ++ [mkBrandSentiment brand [] 0.5%float 3.0%float 0 0 0],
     snd acc ++ [mkRatingRow brand 3.0%float 0.5%float 0
                             0.0%float 0.0%float 0.0%float []]) /\
  (In brand brands ->
   In (mkBrandSentiment brand [] 0.5%float 3.0%float 0 0 0)
      (fst (brand_loop sa transcript brands)) /\
   In (mkRatingRow brand 3.0%float 0.5%float 0 0.0%float 0.0%float 0.0%float [])
      (snd (brand_loop sa transcript brands))) /\
  (forall self, SentimentAnalyzer.analyze_brand_statements self brand []
                <> mkBrandSentiment brand [] 0.5%float 3.0%float 0 0 0).
Proof.
  intros Hnone.
  assert (Hstep : forall acc',
            brand_step sa transcript acc' brand
            = (fst acc' ++ [neutral_sentiment brand], snd acc' ++ [neutral_row brand])).
  { intros [ss rs]. unfold brand_step. rewrite Hnone. reflexivity. }
  split; [reflexivity|]. split; [apply Hstep|]. split.
  - unfold brand_loop. generalize (@nil BrandSentiment, @nil RatingRow).
    induction brands as [|b bs IH]; intros acc' Hin; [destruct Hin|].
    cbn [fold_left]. destruct Hin as [-> | Hin].
    + rewrite Hstep. apply brand_loop_keeps; cbn [fst snd];
        apply in_or_app; right; now left.
    + now apply IH.
  - intros self Heq. cbn in Heq.
    apply (f_equal (fun s => PrimFloat.eqb (avg_score s) 0.5)) in Heq.
    vm_compute in Heq. discriminate Heq.
Qed.

(** The hypothesis of C3 is met: a transcript that never names the brand. *)
Lemma zero_statement_defaults_witness :
  let sa := sentiment_analyzer (fun x _ => x) in
  extract_statements_about_brand sa "Isopure is smooth. I like it!" "Kirkland" = [] /\
  brand_loop sa "Isopure is smooth. I like it!" ["Kirkland"]
  = ([mkBrandSentiment "Kirkland" [] 0.5%float 3.0%float 0 0 0],
     [mkRatingRow "Kirkland" 3.0%float 0.5%float 0 0.0%float 0.0%float 0.0%float []]).
Proof.
  split; [reflexivity|].
  exact (proj1 (proj2 (zero_statement_defaults
                  (sentiment_analyzer (fun x _ => x))
                  "Isopure is smooth. I like it!" "Kirkland" ([], []) []
                  eq_refl))).
Defined.

End ZeroStatements.

(** ** The order of the non-NaN floats *)

Section FloatOrderFacts.

Import FloatOrder.

Lemma SFcompare_rank (f1 f2 : spec_float) :
  f1 <> S754_nan -> f2 <> S754_nan ->
  exists c, SFcompare f1 f2 = Some c /\
    (c = Lt <-> lex_lt (rank f1) (rank f2)) /\
    (c = Gt <-> lex_lt (rank f2) (rank f1)).
Proof.
  intros H1 H2. unfold lex_lt.
  destruct f1 as [s1|s1| |s1 m1 e1], f2 as [s2|s2| |s2 m2 e2];
    try congruence; cbn [SFcompare rank fst snd];
    try (destruct s1); try (destruct s2); cbn [rank fst snd];
    try (eexists; split; [reflexivity|]; split; split;
         try discriminate; intros; try lia; reflexivity).
  - change (Pos.compare_cont Eq m1 m2) with (Pos.compare m1 m2).
    destruct (Z.compare_spec e1 e2), (Pos.compare_spec m1 m2); cbn [CompOpp];
      eexists; (split; [reflexivity|]); split; split;
      try discriminate; intros; try lia; reflexivity.
  - change (Pos.compare_cont Eq m1 m2) with (Pos.compare m1 m2).
    destruct (Z.compare_spec e1 e2), (Pos.compare_spec m1 m2); cbn [CompOpp];
      eexists; (split; [reflexivity|]); split; split;
      try discriminate; intros; try lia; reflexivity.
Qed.

Lemma is_number_not_nan (x : float) :
  is_number x = true -> Prim2SF x <> S754_nan.
Proof.
  unfold is_number. rewrite FloatAxioms.eqb_spec. intros H Hnan. rewrite Hnan in H.
  discriminate H.
Qed.

Lemma ltb_rank (x y : float) :
  is_number x = true -> is_number y = true ->
  ((x <? y)%float = true <-> lex_lt (rank (Prim2SF x)) (rank (Prim2SF y))).
Proof.
  intros Hx%is_number_not_nan Hy%is_number_not_nan. rewrite FloatAxioms.ltb_spec.
  destruct (SFcompare_rank _ _ Hx Hy) as (c & Hc & Hlt & _).
  unfold SFltb. rewrite Hc. rewrite <- Hlt. destruct c; split; congruence.
Qed.

Lemma leb_rank (x y : float) :
  is_number x = true -> is_number y = true ->
  ((x <=? y)%float = true <-> ~ lex_lt (rank (Prim2SF y)) (rank (Prim2SF x))).
Proof.
  intros Hx%is_number_not_nan Hy%is_number_not_nan. rewrite FloatAxioms.leb_spec.
  destruct (SFcompare_rank _ _ Hx Hy) as (c & Hc & _ & Hgt).
  unfold SFleb. rewrite Hc. rewrite <- Hgt. destruct c; split; congruence.
Qed.

Ltac float_order :=
  repeat match goal with
  | H : (_ <? _)%float = true |- _ => apply ltb_rank in H; [|assumption..]
  | H : (_ <=? _)%float = true |- _ => apply leb_rank in H; [|assumption..]
  | H : (_ <? _)%float = false |- _ =>
      apply not_true_iff_false in H; rewrite ltb_rank in H by assumption
  | |- (_ <? _)%float = true => apply ltb_rank; [assumption..|]
  | |- (_ <=? _)%float = true => apply leb_rank; [assumption..|]
  end;
  unfold lex_lt in *;
  repeat match goal with
  | |- context [rank ?f] => generalize dependent (rank f); intros [[? ?] ?]
  end;
  cbn [fst snd] in *; lia.

Lemma ltb_false_leb (x y : float) :
  is_number x = true -> is_number y = true ->
  (x <? y)%float = false -> (y <=? x)%float = true.
Proof. intros Hx Hy H. float_order. Qed.

Lemma ltb_leb (x y : float) :
  is_number x = true -> is_number y = true ->
  (x <? y)%float = true -> (x <=? y)%float = true.
Proof. intros Hx Hy H. float_order. Qed.

Lemma ltb_trans (x y z : float) :
  is_number x = true -> is_number y = true -> is_number z = true ->
  (x <? y)%float = true -> (y <? z)%float = true -> (x <? z)%float = true.
Proof. intros Hx Hy Hz H1 H2. float_order. Qed.

Lemma ltb_leb_trans (x y z : float) :
  is_number x = true -> is_number y = true -> is_number z = true ->
  (x <? y)%float = true -> (y <=? z)%float = true -> (x <? z)%float = true.
Proof. intros Hx Hy Hz H1 H2. float_order. Qed.

Lemma leb_ltb_trans (x y z : float) :
  is_number x = true -> is_number y = true -> is_number z = true ->
  (x <=? y)%float = true -> (y <? z)%float = true -> (x <? z)%float = true.
Proof. intros Hx Hy Hz H1 H2. float_order. Qed.

End FloatOrderFacts.

(** ** Selecting the first best element *)

Section FirstBest.

Variables (A : Type) (ok : A -> Prop) (better no_worse : A -> A -> bool).

Hypothesis total :
  forall x y, ok x -> ok y -> better x y = false -> no_worse y x = true.
Hypothesis better_no_worse :
  forall x y z, ok x -> ok y -> ok z ->
    better x y = true -> no_worse y z = true -> better x z = true.
Hypothesis better_better :
  forall x y z, ok x -> ok y -> ok z ->
    better x y = true -> better y z = true -> better x z = true.

(** The loop of [min] and [max]: a later item replaces the running best only
    when it is strictly better. *)
Let select (x : A) (xs : list A) : A :=
  fold_left (fun best item => if better item best then item else best) xs x.

Let first_best (l : list A) (b : A) : Prop :=
  exists pre post,
    l = pre ++ b :: post /\
    (forall s, In s pre -> better b s = true) /\
    (forall s, In s post -> no_worse b s = true).

Lemma select_invariant (xs pre mid : list A) (b : A) :
  (forall s, In s (pre ++ b :: mid ++ xs) -> ok s) ->
  (forall s, In s pre -> better b s = true) ->
  (forall s, In s mid -> no_worse b s = true) ->
  first_best (pre ++ b :: mid ++ xs) (select b xs).
Proof.
  revert pre mid b. induction xs as [|x xs IH]; intros pre mid b Hok Hpre Hmid.
  - exists pre, mid. rewrite app_nil_r. auto.
  - assert (Hb : ok b) by (apply Hok, in_or_app; right; now left).
    assert (Hx : ok x).
    { apply Hok, in_or_app. right. right. apply in_or_app. right. now left. }
    unfold select. cbn [fold_left]. fold (select (if better x b then x else b) xs).
    destruct (better x b) eqn:E.
    + replace (pre ++ b :: mid ++ x :: xs) with ((pre ++ b :: mid) ++ x :: [] ++ xs)
        by (now rewrite <- app_assoc).
      apply IH.
      * intros s Hs. apply Hok. rewrite <- app_assoc in Hs. exact Hs.
      * intros s Hs. apply in_app_or in Hs as [Hs | [<- | Hs]].
        -- apply (better_better x b s); auto.
           apply Hok, in_or_app. now left.
        -- exact E.
        -- apply (better_no_worse x b s); auto.
           apply Hok, in_or_app. right. right. apply in_or_app. now left.
      * intros s [].
    + replace (pre ++ b :: mid ++ x :: xs) with (pre ++ b :: (mid ++ [x]) ++ xs)
        by (now rewrite <- app_assoc).
      apply IH.
      * intros s Hs. apply Hok. rewrite <- app_assoc in Hs. exact Hs.
      * exact Hpre.
      * intros s Hs. apply in_app_or in Hs as [Hs | [<- | []]]; auto.
Qed.

Lemma select_first_best (x : A) (xs : list A) :
  (forall s, In s (x :: xs) -> ok s) -> first_best (x :: xs) (select x xs).
Proof.
  intros Hok. apply (select_invariant xs [] [] x); [exact Hok| |]; intros s [].
Qed.

End FirstBest.

(** ** Cross-brand comparison *)

Section Comparison.

Import BrandSegmenter InsightGenerator.

Lemma min_by_first_min {A : Type} (key : A -> float) (x : A) (xs : list A) :
  (forall s, In s (x :: xs) -> FloatOrder.is_number (key s) = true) ->
  Selection.first_min key (x :: xs) (Py.min_by key x xs).
Proof.
  intros Hok.
  apply (select_first_best A (fun s => FloatOrder.is_number (key s) = true)
           (fun a b => (key a <? key b)%float) (fun a b => (key a <=? key b)%float));
    [| | |exact Hok].
  - intros a b Ha Hb. now apply ltb_false_leb.
  - intros a b c Ha Hb Hc. now apply ltb_leb_trans.
  - intros a b c Ha Hb Hc. now apply ltb_trans.
Qed.

Lemma max_by_first_max {A : Type} (key : A -> float) (x : A) (xs : list A) :
  (forall s, In s (x :: xs) -> FloatOrder.is_number (key s) = true) ->
  Selection.first_max key (x :: xs) (Py.max_by key x xs).
Proof.
  intros Hok.
  apply (select_first_best A (fun s => FloatOrder.is_number (key s) = true)
           (fun a b => (key b <? key a)%float) (fun a b => (key b <=? key a)%float));
    [| | |exact Hok].
  - intros a b Ha Hb. now apply ltb_false_leb.
  - intros a b c Ha Hb Hc H1 H2. now apply (leb_ltb_trans (key c) (key b) (key a)).
  - intros a b c Ha Hb Hc H1 H2. now apply (ltb_trans (key c) (key b) (key a)).
Qed.



(** The three best-of entries of a non-empty comparison. *)
Lemma comparative_insights_lookup (first : BrandSegment) (others : list BrandSegment) :
  let segments := first :: others in
  let insights := generate_comparative_insights segments in
  insights !! "best_value"
  = Some (match List.filter is_high_quality segments with
          | [] => VNone
          | h :: hs => VSegment (Py.min_by price_key h hs)
          end) /\
  insights !! "highest_quality" = Some (VSegment (Py.max_by avg_rating first others)) /\
  insights !! "most_affordable" = Some (VSegment (Py.min_by price_key first others)).
Proof.
  cbv zeta. unfold generate_comparative_insights.
  generalize (List.filter is_high_quality (first :: others)).
  generalize (List.filter is_premium (first :: others)).
  intros premium high. cbv zeta.
  repeat split; destruct high, premium;
    repeat first [ rewrite lookup_insert_eq | rewrite lookup_insert_ne by discriminate ];
    reflexivity.
Qed.

(** C9.  On an empty segment list [generate_comparative_insights] returns
    the dict it starts from: the four best-of entries are [None], the two
    brand lists are empty, and ["comparison_summary"] is present and holds
    the empty string. *)
Theorem comparative_insights_empty :
  let insights := generate_comparative_insights [] in
  insights !! "best_value" = Some VNone /\
  insights !! "highest_quality" = Some VNone /\
  insights !! "most_affordable" = Some VNone /\
  insights !! "premium_choice" = Some VNone /\
  insights !! "clean_ingredients" = Some (VBrands []) /\
  insights !! "third_party_tested" = Some (VBrands []) /\
  insights !! "comparison_summary" = Some (VText "") /\
  size insights = 7%nat.
Proof. cbv zeta. repeat split; vm_compute; reflexivity. Qed.




(** A price of [0.0] is false in [x.price_per_serving or float('inf')], so
    the key treats it as unknown, whereas [_categorize_price] tests
    [is None] and classifies it as BUDGET. *)
Lemma zero_price_ranked_as_unknown :
  let paid := mkBrandSegment "Paid" PriceCategory.BUDGET QualityCategory.STANDARD
                4.2%float (Some 0.5%float) None false false [] in
  let free := mkBrandSegment "Free" (_categorize_price (Some 0.0%float))
                QualityCategory.STANDARD 4.2%float (Some 0.0%float) None false false [] in
  price_category free = PriceCategory.BUDGET /\
  price_key free = infinity /\
  generate_comparative_insights [paid; free] !! "best_value" = Some (VSegment paid) /\
  generate_comparative_insights [paid; free] !! "most_affordable" = Some (VSegment paid).
Proof. cbv zeta. repeat split; vm_compute; reflexivity. Qed.

End Comparison.

(** ** Per-brand insight lists *)

Section InsightLists.

Import BrandSegmenter InsightGenerator.

Lemma mem_In (x : string) (l : list string) : Phrases.mem x l = true <-> In x l.
Proof.
  unfold Phrases.mem. rewrite existsb_exists. split.
  - intros (y & Hy & ->%String.eqb_eq). exact Hy.
  - intros H. exists x. split; [exact H|apply String.eqb_refl].
Qed.

Lemma nodup_NoDup (l : list string) : Phrases.nodup l = true -> List.NoDup l.
Proof.
  induction l as [|x l IH]; cbn [Phrases.nodup]; [constructor|].
  intros [Hx Hl]%andb_prop. constructor; [|now apply IH].
  rewrite <- mem_In. now destruct (Phrases.mem x l).
Qed.

Lemma NoDup_nodup (l : list string) : List.NoDup l -> Phrases.nodup l = true.
Proof.
  induction 1 as [|x l Hx _ IH]; cbn [Phrases.nodup]; [reflexivity|].
  rewrite IH, andb_true_r. rewrite <- mem_In in Hx.
  now destruct (Phrases.mem x l).
Qed.

Lemma subset_incl (l k : list string) : Phrases.subset l k = true -> incl l k.
Proof.
  unfold Phrases.subset. rewrite forallb_forall. intros H x Hx.
  now apply mem_In, H.
Qed.

Lemma disjoint_not_In (l k : list string) :
  Phrases.disjoint l k = true <-> (forall x, In x l -> ~ In x k).
Proof.
  unfold Phrases.disjoint. rewrite forallb_forall. split; intros H x Hx.
  - rewrite <- mem_In. specialize (H x Hx). now destruct (Phrases.mem x k).
  - specialize (H x Hx). rewrite <- mem_In in H. now destruct (Phrases.mem x k).
Qed.

Lemma filter_twice {A : Type} (f g h : A -> bool) (l : list A) :
  (forall x, h x = g x && f x) ->
  List.filter f (List.filter g l) = List.filter h l.
Proof.
  intros Hh. induction l as [|x l IH]; cbn [List.filter]; [reflexivity|].
  rewrite Hh. destruct (g x); cbn [List.filter andb]; [|exact IH].
  destruct (f x); now rewrite IH.
Qed.

Lemma filter_all {A : Type} (f : A -> bool) (l : list A) :
  (forall x, f x = true) -> List.filter f l = l.
Proof.
  intros Hf. induction l as [|x l IH]; cbn [List.filter]; [reflexivity|].
  now rewrite Hf, IH.
Qed.

(** The loop with its set of seen items keeps, of what is still to come,
    the first occurrences of the items not seen yet. *)
Lemma dedup_loop_from (l : list string) (seen : gset string) (acc : list string) :
  snd (fold_left dedup_step l (seen, acc))
  = acc ++ List.filter (fun y => bool_decide (y ∉ seen)) (Phrases.first_seen l).
Proof.
  revert seen acc. induction l as [|x l IH]; intros seen acc.
  - cbn. now rewrite app_nil_r.
  - cbn [fold_left Phrases.first_seen List.filter]. unfold dedup_step at 2.
    destruct (decide (x ∈ seen)) as [Hin | Hout].
    + rewrite IH. rewrite bool_decide_eq_false_2 by (intros H; now apply H).
      f_equal. symmetry. apply filter_twice. intros y.
      destruct (String.eqb_spec y x) as [-> | Hne]; cbn [negb andb]; [|reflexivity].
      apply bool_decide_eq_false_2. intros H. now apply H.
    + rewrite IH. rewrite bool_decide_eq_true_2 by exact Hout.
      rewrite <- app_assoc. cbn [app]. do 2 f_equal. symmetry.
      apply filter_twice. intros y.
      destruct (String.eqb_spec y x) as [-> | Hne]; cbn [negb andb].
      * apply bool_decide_eq_false_2. intros H. apply H.
        apply elem_of_union_l, elem_of_singleton. reflexivity.
      * apply bool_decide_ext. rewrite elem_of_union, elem_of_singleton. tauto.
Qed.

Lemma dedup_loop_first_seen (l : list string) :
  dedup_loop l = Phrases.first_seen l.
Proof.
  unfold dedup_loop. rewrite dedup_loop_from. cbn [app].
  apply filter_all. intros y. apply bool_decide_eq_true_2, not_elem_of_empty.
Qed.

Lemma first_seen_NoDup (l : list string) : List.NoDup (Phrases.first_seen l).
Proof.
  induction l as [|x l IH]; cbn [Phrases.first_seen]; constructor.
  - intros [_ H]%List.filter_In. now rewrite String.eqb_refl in H.
  - now apply List.NoDup_filter.
Qed.

Lemma first_seen_In (l : list string) (x : string) :
  In x (Phrases.first_seen l) <-> In x l.
Proof.
  induction l as [|y l IH]; cbn [Phrases.first_seen In]; [reflexivity|].
  rewrite List.filter_In, IH.
  destruct (String.eqb_spec x y) as [-> | Hne]; cbn [negb]; intuition congruence.
Qed.

(** Splits the goal along every test that a rule block performs. *)
Ltac rule_cases :=
  unfold append_if, Py.truthy_int, Py.truthy_float;
  repeat match goal with
  | |- context [if ?b then _ else _] => destruct b
  | |- context [match ?x with _ => _ end] => destruct x
  end.

Lemma weaknesses_NoDup (segment : BrandSegment)
  (sentiment_data : option SentimentAnalyzer.BrandSentiment) :
  List.NoDup (_identify_weaknesses segment sentiment_data).
Proof.
  apply nodup_NoDup. unfold _identify_weaknesses. cbv zeta.
  destruct segment as [b pc qc rating price protein tested sweet feats].
  cbn [quality_category price_category avg_rating protein_content
       third_party_tested artificial_sweeteners].
  rule_cases; vm_compute; reflexivity.
Qed.

Lemma recommendations_NoDup (segment : BrandSegment)
  (sentiment_data : option SentimentAnalyzer.BrandSentiment) :
  List.NoDup (_generate_recommendations segment sentiment_data).
Proof.
  apply nodup_NoDup. unfold _generate_recommendations. cbv zeta.
  destruct segment as [b pc qc rating price protein tested sweet feats].
  cbn [quality_category price_category avg_rating protein_content
       third_party_tested artificial_sweeteners].
  rule_cases; vm_compute; reflexivity.
Qed.

(** The strengths are rule phrases, each at most once, followed by the
    segment's features as they are. *)
Lemma strengths_shape (segment : BrandSegment)
  (sentiment_data : option SentimentAnalyzer.BrandSentiment) :
  exists rules,
    _identify_strengths segment sentiment_data = rules ++ features segment /\
    List.NoDup rules /\ incl rules Phrases.strength_phrases.
Proof.
  unfold _identify_strengths. cbv zeta. eexists. split; [reflexivity|].
  assert (H : forall l, Phrases.nodup l && Phrases.subset l Phrases.strength_phrases = true ->
                        List.NoDup l /\ incl l Phrases.strength_phrases).
  { intros l [H1 H2]%andb_prop. split; [now apply nodup_NoDup|now apply subset_incl]. }
  apply H. clear H.
  destruct segment as [b pc qc rating price protein tested sweet feats].
  cbn [quality_category price_category avg_rating protein_content price_per_serving
       third_party_tested artificial_sweeteners].
  rule_cases; vm_compute; reflexivity.
Qed.

(** The features of every catalog entry, and of the default record of an
    unknown brand, are free of duplicates and are not rule phrases. *)
Lemma catalog_features (brand : string) :
  let feats := info_features (default no_info (brand_data !! brand)) in
  List.NoDup feats /\ forall x, In x feats -> ~ In x Phrases.strength_phrases.
Proof.
  cbv zeta.
  assert (H : forall l, Phrases.nodup l && Phrases.disjoint l Phrases.strength_phrases = true ->
                        List.NoDup l /\ forall x, In x l -> ~ In x Phrases.strength_phrases).
  { intros l [H1 H2]%andb_prop. split; [now apply nodup_NoDup|now apply disjoint_not_In]. }
  apply H. clear H. unfold brand_data.
  repeat (rewrite lookup_insert; case_decide; [vm_compute; reflexivity|]).
  rewrite lookup_empty. vm_compute. reflexivity.
Qed.

(** C8, as amended.  For every segment and optional sentiment data, the
    weaknesses, the recommendations and the target audience of the insight
    are free of duplicates, the target audience being the collected
    audience with each phrase kept where it is first seen.  [key_features]
    is the segment's feature list as it is, and [strengths] is a
    duplicate-free list of rule phrases followed by those features as they
    are: the two are free of duplicates when the features are (and, for the
    strengths, when no feature is a rule phrase), which holds of every
    segment that [segment_brand] builds. *)
Theorem insight_lists_duplicate_free (segment : BrandSegment)
  (sentiment_data : option SentimentAnalyzer.BrandSentiment) :
  let insight := generate_brand_insight segment sentiment_data in
  List.NoDup (weaknesses insight) /\
  List.NoDup (recommendations insight) /\
  List.NoDup (target_audience insight) /\
  target_audience insight = Phrases.first_seen (audience_candidates segment) /\
  key_features insight = features segment /\
  (exists rules,
     strengths insight = rules ++ features segment /\
     List.NoDup rules /\ incl rules Phrases.strength_phrases) /\
  (List.NoDup (features segment) -> List.NoDup (key_features insight)) /\
  (List.NoDup (features segment) ->
   (forall x, In x (features segment) -> ~ In x Phrases.strength_phrases) ->
   List.NoDup (strengths insight)) /\
  (forall brand avg_rating,
     let built := generate_brand_insight (segment_brand brand avg_rating) sentiment_data in
     List.NoDup (strengths built) /\ List.NoDup (key_features built)).
Proof.
  assert (Hstrengths : forall seg,
            List.NoDup (features seg) ->
            (forall x, In x (features seg) -> ~ In x Phrases.strength_phrases) ->
            List.NoDup (_identify_strengths seg sentiment_data)).
  { intros seg Hnodup Hfresh.
    destruct (strengths_shape seg sentiment_data) as (rules & -> & Hrules & Hincl).
    apply List.NoDup_app; [exact Hrules|exact Hnodup|].
    intros x Hx Hfeat. exact (Hfresh x Hfeat (Hincl x Hx)). }
  cbv zeta. unfold generate_brand_insight. cbv zeta.
  cbn [weaknesses recommendations target_audience key_features strengths].
  split; [apply weaknesses_NoDup|]. split; [apply recommendations_NoDup|].
  unfold _identify_target_audience. rewrite dedup_loop_first_seen.
  split; [apply first_seen_NoDup|]. split; [reflexivity|]. split; [reflexivity|].
  split; [apply strengths_shape|]. split; [auto|]. split; [apply Hstrengths|].
  intros brand avg_rating.
  destruct (catalog_features brand) as [Hnodup Hfresh]. cbv zeta in Hnodup, Hfresh.
  split; [apply Hstrengths|]; assumption.
Qed.

(** C8 as stated fails: nothing removes a feature that a segment lists
    twice, so it is twice among the key features and twice among the
    strengths. *)
Lemma repeated_feature_is_kept :
  let segment :=
    mkBrandSegment "Accent" PriceCategory.BUDGET QualityCategory.STANDARD 4.2%float
      (Some 0.88%float) (Some 25) true false
      ["Clean ingredients"; "Clean ingredients"] in
  let insight := generate_brand_insight segment None in
  ~ List.NoDup (key_features insight) /\ ~ List.NoDup (strengths insight).
Proof.
  cbv zeta. split; intros H%NoDup_nodup; vm_compute in H; discriminate H.
Qed.

End InsightLists.

(** ** More on scoring and aggregation *)

Section ScoringRules.

Import SentimentAnalyzer.

(** The label and the rating of a statement are decided by integer
    comparisons on its keyword counts: with [t] the number of hits and
    [d = 5 * (pos - neg)], the label is POSITIVE iff [d > t] and NEGATIVE iff
    [d < -t], and the rating is 5, 4, 3, 2 as [d] reaches [3t], [t], [-t],
    [-3t], else 1; a statement without hits is NEUTRAL with 3 stars, and one
    with as many positive as negative hits has score 0.5. *)
Theorem analyze_statement_integer_rule (text : string) :
  let pos := Reference.present (positive_keywords __init__) text in
  let neg := Reference.present (negative_keywords __init__) text in
  let neu := Reference.present (neutral_keywords __init__) text in
  let r := analyze_statement __init__ text in
  label r = IntegerRule.label pos neg neu /\
  rating r = IntegerRule.rating pos neg neu /\
  (pos = neg -> (score r =? 0.5)%float = true /\ label r = "NEUTRAL" /\ rating r = 3).
Proof.
  cbv zeta. rewrite (analyze_statement_counts __init__ text).
  pose proof (for_all_counts_spec 17 16 10 IntegerRule.agrees
                ltac:(vm_compute; reflexivity) _ _ _
                (present_bounds (positive_keywords __init__) text)
                (present_bounds (negative_keywords __init__) text)
                (present_bounds (neutral_keywords __init__) text)) as H.
  revert H.
  generalize (Reference.present (positive_keywords __init__) text)
             (Reference.present (negative_keywords __init__) text)
             (Reference.present (neutral_keywords __init__) text).
  intros pos neg neu H. unfold IntegerRule.agrees in H. cbv zeta in H.
  unfold Counts.result_of. cbv zeta. cbn [label rating score].
  revert H. generalize (Counts.score_of pos neg neu). intros s H.
  apply andb_prop in H as [H Hhalf]. apply andb_prop in H as [Hl Hr].
  apply String.eqb_eq in Hl. apply Z.eqb_eq in Hr.
  split; [exact Hl|]. split; [exact Hr|].
  intros ->. rewrite Z.eqb_refl in Hhalf.
  apply andb_prop in Hhalf as [Hhalf H3]. apply andb_prop in Hhalf as [Hhalf Hn].
  apply String.eqb_eq in Hn. apply Z.eqb_eq in H3. auto.
Qed.

End ScoringRules.

Section AggregationRows.

Import SentimentAnalyzer.

Lemma analyze_brand_statements_fields (self : SentimentAnalyzer.t) (brand : string)
  (statements : list string) :
  SentimentAnalyzer.statements (analyze_brand_statements self brand statements)
  = map (analyze_statement self) statements /\
  SentimentAnalyzer.brand (analyze_brand_statements self brand statements) = brand.
Proof.
  unfold analyze_brand_statements. cbv zeta. rewrite append_loop_map. cbn [app].
  destruct (map (analyze_statement self) statements) as [|r rs] eqn:Hmap.
  - destruct statements; [|discriminate Hmap]. split; reflexivity.
  - split; reflexivity.
Qed.

Lemma analyze_statement_text (self : SentimentAnalyzer.t) (t : string) :
  text (analyze_statement self t) = t.
Proof. now rewrite analyze_statement_counts. Qed.

(** [analyze_brand_statements] keeps one result per statement, in order:
    its [statements] are [analyze_statement] of each input statement, their
    texts are the input statements, and the brand is handed through. *)
Theorem brand_statements_in_order (self : SentimentAnalyzer.t) (brand : string)
  (statements : list string) :
  let bs := analyze_brand_statements self brand statements in
  SentimentAnalyzer.statements bs = map (analyze_statement self) statements /\
  map text (SentimentAnalyzer.statements bs) = statements /\
  SentimentAnalyzer.brand bs = brand.
Proof.
  cbv zeta.
  destruct (analyze_brand_statements_fields self brand statements) as [Hst Hbrand].
  split; [exact Hst|]. split; [|exact Hbrand].
  rewrite Hst, map_map. rewrite <- (map_id statements) at 2.
  apply map_ext, analyze_statement_text.
Qed.

(** The rating row of a brand's statements lists, in order, the text, label
    and rating of each statement and counts them in [total_statements]; for
    no statements it is the all-zero row. *)
Theorem rating_summary_rows (round : float -> Z -> float) (self : SentimentAnalyzer.t)
  (brand : string) (statements : list string) :
  let row := create_rating_summary round self
               (analyze_brand_statements self brand statements) in
  rr_brand row = brand /\
  rr_total_statements row = Py.len statements /\
  rr_statements row
  = map (fun t => mkStatementRow t (label (analyze_statement self t))
                                 (rating (analyze_statement self t))) statements /\
  map row_text (rr_statements row) = statements /\
  create_rating_summary round self (analyze_brand_statements self brand [])
  = mkRatingRow brand 0.0%float 0.0%float 0 0.0%float 0.0%float 0.0%float [].
Proof.
  cbv zeta.
  destruct (analyze_brand_statements_fields self brand statements) as [Hst Hbrand].
  unfold create_rating_summary. cbv zeta. rewrite Hbrand, Hst.
  unfold Py.len. rewrite length_map.
  destruct statements as [|s ss].
  - cbn. repeat split.
  - replace (Z.of_nat (length (s :: ss)) =? 0) with false
      by (symmetry; apply Z.eqb_neq; cbn [length]; lia).
    cbn [rr_brand rr_total_statements rr_statements].
    split; [reflexivity|]. split; [reflexivity|].
    assert (Hmap : map (fun r => mkStatementRow (text r) (label r) (rating r))
                     (map (analyze_statement self) (s :: ss))
                   = map (fun t => mkStatementRow t (label (analyze_statement self t))
                                                  (rating (analyze_statement self t)))
                         (s :: ss)).
    { rewrite map_map. apply map_ext. intros t.
      now rewrite analyze_statement_text. }
    rewrite Hmap. split; [reflexivity|]. split; [|reflexivity].
    rewrite map_map. cbn [row_text]. apply map_id.
Qed.

End AggregationRows.

(** ** More on statement extraction *)

Section ExtractionEdges.

Import SentimentAnalyzer.

Lemma all_chars_append (P : ascii -> bool) (a b : string) :
  Reference.all_chars P (a ++ b)%string
  = Reference.all_chars P a && Reference.all_chars P b.
Proof.
  induction a as [|c a IH]; [reflexivity|].
  rewrite append_cons. cbn [Reference.all_chars]. now rewrite IH, andb_assoc.
Qed.

Lemma all_chars_lstrip (P : ascii -> bool) (s : string) :
  Reference.all_chars P s = true -> Reference.all_chars P (Py.lstrip s) = true.
Proof.
  induction s as [|c s IH]; cbn [Py.lstrip Reference.all_chars]; [auto|].
  intros [Hc Hs]%andb_prop. destruct (Py.isspace c); [auto|].
  cbn [Reference.all_chars]. now rewrite Hc, Hs.
Qed.

Lemma all_chars_rstrip (P : ascii -> bool) (s : string) :
  Reference.all_chars P s = true -> Reference.all_chars P (Py.rstrip s) = true.
Proof.
  induction s as [|c s IH]; cbn [Py.rstrip Reference.all_chars]; [auto|].
  intros [Hc Hs]%andb_prop. specialize (IH Hs).
  destruct (Py.rstrip s) as [|d r].
  - destruct (Py.isspace c); cbn [Reference.all_chars]; [reflexivity|].
    now rewrite Hc.
  - cbn [Reference.all_chars] in *. now rewrite Hc, IH.
Qed.

Lemma is_terminator_lower_char (c : ascii) :
  Py.is_terminator (Py.lower_char c) = Py.is_terminator c.
Proof. destruct c as [[] [] [] [] [] [] [] []]; reflexivity. Qed.

Lemma terminator_free_lower (s : string) :
  Reference.all_chars (fun c => negb (Py.is_terminator c)) (Py.lower s)
  = Reference.all_chars (fun c => negb (Py.is_terminator c)) s.
Proof.
  induction s as [|c s IH]; cbn [Py.lower Reference.all_chars]; [reflexivity|].
  now rewrite is_terminator_lower_char, IH.
Qed.

Lemma rstrip_idempotent (s : string) : Py.rstrip (Py.rstrip s) = Py.rstrip s.
Proof.
  induction s as [|c s IH]; cbn [Py.rstrip]; [reflexivity|].
  destruct (Py.rstrip s) as [|d r] eqn:Hr.
  - destruct (Py.isspace c) eqn:Hc; cbn [Py.rstrip]; [reflexivity|].
    now rewrite Hc.
  - change (Py.rstrip (String c (String d r)))
      with (match Py.rstrip (String d r) with
            | EmptyString => if Py.isspace c then EmptyString else String c EmptyString
            | String _ _ as r' => String c r'
            end).
    now rewrite IH.
Qed.

(** What [lstrip] returns does not begin with white space, and [rstrip]
    leaves such a string beginning as it does. *)
Lemma lstrip_rstrip_lstrip (s : string) :
  Py.lstrip (Py.rstrip (Py.lstrip s)) = Py.rstrip (Py.lstrip s).
Proof.
  induction s as [|c s IH]; cbn [Py.lstrip]; [reflexivity|].
  destruct (Py.isspace c) eqn:Hc; [exact IH|].
  cbn [Py.rstrip]. destruct (Py.rstrip s); rewrite ?Hc; cbn [Py.lstrip];
    now rewrite Hc.
Qed.

Lemma strip_idempotent (s : string) : Py.strip (Py.strip s) = Py.strip s.
Proof.
  unfold Py.strip. now rewrite lstrip_rstrip_lstrip, rstrip_idempotent.
Qed.

Lemma splits_pieces_free (text : string) (pieces : list string) :
  Reference.splits text pieces ->
  forall p, In p pieces -> Reference.terminator_free p.
Proof.
  induction 1 as [p Hp | p r text pieces Hp Hr Hs IH Ha]; intros q [<- | Hq]; auto.
  destruct Hq.
Qed.

Lemma str_in_terminator_free (w t : string) :
  Py.str_in w t = true -> Reference.terminator_free t -> Reference.terminator_free w.
Proof.
  intros (pre & post & ->)%str_in_substring. unfold Reference.terminator_free.
  rewrite !all_chars_append. intros [_ [Hw _]%andb_prop]%andb_prop. exact Hw.
Qed.

Lemma str_in_empty (t : string) : Py.str_in "" t = true.
Proof. destruct t; reflexivity. Qed.

(** The loop of [extract_statements_about_brand] as a filter and a map. *)
Lemma extract_statements_filter (self : SentimentAnalyzer.t) (text brand : string) :
  extract_statements_about_brand self text brand
  = map Py.strip
      (List.filter
         (fun sentence =>
            Py.str_in (Py.strip (Py.lower brand)) (Py.strip (Py.lower sentence)))
         (Py.re_split text)).
Proof.
  unfold extract_statements_about_brand. cbv zeta.
  now rewrite (filter_loop_map
                 (fun sentence =>
                    Py.str_in (Py.strip (Py.lower brand)) (Py.strip (Py.lower sentence)))
                 Py.strip).
Qed.

(** Every statement that [extract_statements_about_brand] returns is
    trimmed (trimming it again changes nothing), contains none of [.], [!],
    [?], and contains the lower-cased trimmed brand name once lower-cased. *)
Theorem extracted_statements_clean (self : SentimentAnalyzer.t) (text brand : string) :
  List.Forall
    (fun s =>
       Py.strip s = s /\ Reference.terminator_free s /\
       Py.str_in (Py.strip (Py.lower brand)) (Py.lower s) = true)
    (extract_statements_about_brand self text brand).
Proof.
  rewrite extract_statements_filter. apply List.Forall_forall. intros s Hs.
  apply in_map_iff in Hs as (sentence & <- & Hin).
  apply List.filter_In in Hin as [Hin Hmatch].
  split; [apply strip_idempotent|]. split.
  - unfold Reference.terminator_free, Py.strip.
    apply all_chars_rstrip, all_chars_lstrip.
    exact (splits_pieces_free _ _ (proj1 (re_split_from_splits text)) _ Hin).
  - now rewrite <- strip_lower.
Qed.

Lemma filter_none {A : Type} (f : A -> bool) (l : list A) :
  (forall x, In x l -> f x = false) -> List.filter f l = [].
Proof.
  induction l as [|x l IH]; intros H; cbn [List.filter]; [reflexivity|].
  rewrite (H x) by now left. apply IH. intros y Hy. apply H. now right.
Qed.

(** A brand name that contains [.], [!] or [?] once trimmed is never found:
    no candidate sentence contains such a character. *)
Theorem brand_with_terminator_not_found (self : SentimentAnalyzer.t)
  (text brand : string) :
  Reference.all_chars (fun c => negb (Py.is_terminator c)) (Py.strip brand) = false ->
  extract_statements_about_brand self text brand = [].
Proof.
  intros Hbrand. rewrite extract_statements_filter.
  rewrite filter_none; [reflexivity|]. intros sentence Hin.
  destruct (Py.str_in _ _) eqn:Hmatch; [|reflexivity].
  apply str_in_terminator_free in Hmatch.
  - unfold Reference.terminator_free in Hmatch.
    rewrite terminator_free_code, strip_lower, terminator_free_lower in Hmatch.
    congruence.
  - unfold Reference.terminator_free, Py.strip.
    apply all_chars_rstrip, all_chars_lstrip.
    rewrite terminator_free_code, terminator_free_lower, <- terminator_free_code.
    exact (splits_pieces_free _ _ (proj1 (re_split_from_splits text)) _ Hin).
Qed.

Lemma brand_with_terminator_not_found_witness :
  extract_statements_about_brand __init__
    "I tried Dr. Pepper protein and it was great" "Dr. Pepper" = [].
Proof.
  apply (brand_with_terminator_not_found __init__). reflexivity.
Defined.

(** A brand name that is empty once trimmed is found in every candidate
    sentence: all of them are returned, trimmed, the empty ones too. *)
Theorem blank_brand_keeps_every_sentence (self : SentimentAnalyzer.t)
  (text brand : string) :
  Py.strip brand = "" ->
  extract_statements_about_brand self text brand = map Py.strip (Py.re_split text).
Proof.
  intros Hblank. rewrite extract_statements_filter.
  rewrite strip_lower, Hblank. cbn [Py.lower].
  f_equal. apply filter_all. intros sentence. apply str_in_empty.
Qed.

Lemma blank_brand_keeps_every_sentence_witness :
  extract_statements_about_brand __init__ "Good taste. Bad price!" "  "
  = ["Good taste"; "Bad price"; ""].
Proof.
  rewrite (blank_brand_keeps_every_sentence __init__ "Good taste. Bad price!" "  "
             eq_refl).
  reflexivity.
Defined.

End ExtractionEdges.

(** ** Segmentation of all brands and its summary *)

Section SegmentationRows.

Import BrandSegmenter.

Lemma price_eqb_eq (a b : PriceCategory.t) : price_eqb a b = true <-> a = b.
Proof. destruct a, b; cbn; split; (discriminate || reflexivity). Qed.

Lemma quality_eqb_eq (a b : QualityCategory.t) : quality_eqb a b = true <-> a = b.
Proof. destruct a, b; cbn; split; (discriminate || reflexivity). Qed.

(** The catalog knows six names, spelled exactly. *)
Lemma brand_data_unknown (brand : string) :
  ~ In brand ["Kirkland"; "Isopure"; "Datiz"; "Accent"; "My Protein";
              "Optimum Nutrition"] ->
  brand_data !! brand = None.
Proof.
  intros Hout. unfold brand_data.
  repeat (rewrite lookup_insert_ne;
          [|intros <-; apply Hout; cbn; tauto]).
  apply lookup_empty.
Qed.

(** A brand that is none of the six catalog names, spelled exactly, is
    still segmented: its price is unknown and classed MID_RANGE, it has no
    protein content, no flags and no features, and its quality follows from
    the rating alone. *)
Theorem segment_brand_unknown (brand : string) (avg_rating : float) :
  ~ In brand ["Kirkland"; "Isopure"; "Datiz"; "Accent"; "My Protein";
              "Optimum Nutrition"] ->
  segment_brand brand avg_rating
  = mkBrandSegment brand PriceCategory.MID_RANGE (_categorize_quality avg_rating)
      avg_rating None None false false [].
Proof.
  intros Hout. unfold segment_brand. cbv zeta.
  rewrite (brand_data_unknown brand Hout). reflexivity.
Qed.

(** The catalog is case-sensitive: lower-case ["kirkland"] is unknown. *)
Lemma segment_brand_unknown_witness :
  segment_brand "kirkland" 4.2%float
  = mkBrandSegment "kirkland" PriceCategory.MID_RANGE QualityCategory.STANDARD
      4.2%float None None false false [].
Proof.
  rewrite (segment_brand_unknown "kirkland" 4.2%float).
  - reflexivity.
  - cbn [In]. intros [H | [H | [H | [H | [H | [H | []]]]]]]; discriminate H.
Defined.

Lemma segment_all_brands_loop (brand_ratings : list RatingDict)
  (acc : list BrandSegment) :
  fold_left
    (fun segments brand_data =>
       let brand := get_brand brand_data in
       let avg_rating := default 0.0%float (get_avg_rating brand_data) in
       match brand with
       | Some name =>
           if truthy_brand brand then segments ++ [segment_brand name avg_rating]
           else segments
       | None => segments
       end) brand_ratings acc
  = acc ++ map (fun d => segment_brand (default "" (get_brand d))
                                       (default 0.0%float (get_avg_rating d)))
               (List.filter (fun d => truthy_brand (get_brand d)) brand_ratings).
Proof.
  revert acc.
  induction brand_ratings as [|d ds IH]; intros acc; cbn [fold_left List.filter map].
  - now rewrite app_nil_r.
  - rewrite IH. cbv zeta. destruct d as [[name|] r];
      cbn [get_brand get_avg_rating truthy_brand]; [|reflexivity].
    destruct (String.eqb name ""); cbn [negb map]; [reflexivity|].
    rewrite <- app_assoc. reflexivity.
Qed.

Lemma segment_all_brands_filter (brand_ratings : list RatingDict) :
  segment_all_brands brand_ratings
  = map (fun d => segment_brand (default "" (get_brand d))
                                (default 0.0%float (get_avg_rating d)))
        (List.filter (fun d => truthy_brand (get_brand d)) brand_ratings).
Proof. unfold segment_all_brands. now rewrite segment_all_brands_loop. Qed.

Lemma segment_all_brands_built (rows : list SentimentAnalyzer.RatingRow) :
  segment_all_brands (map rating_dict rows)
  = map (fun row => segment_brand (SentimentAnalyzer.rr_brand row)
                                  (SentimentAnalyzer.rr_avg_rating row))
        (List.filter (fun row => negb (String.eqb (SentimentAnalyzer.rr_brand row) ""))
                     rows).
Proof.
  rewrite segment_all_brands_filter.
  induction rows as [|row rows IH]; cbn [map List.filter]; [reflexivity|].
  cbn [rating_dict get_brand get_avg_rating truthy_brand].
  destruct (String.eqb (SentimentAnalyzer.rr_brand row) ""); cbn [negb map];
    now rewrite IH.
Qed.

Lemma segment_all_brands_built_brands (rows : list SentimentAnalyzer.RatingRow) :
  map brand (segment_all_brands (map rating_dict rows))
  = List.filter (fun name => negb (String.eqb name ""))
                (map SentimentAnalyzer.rr_brand rows).
Proof.
  rewrite segment_all_brands_built, map_map. cbn [segment_brand brand].
  induction rows as [|row rows IH]; cbn [map List.filter]; [reflexivity|].
  destruct (String.eqb (SentimentAnalyzer.rr_brand row) ""); cbn [negb map];
    now rewrite IH.
Qed.

(** [segment_all_brands] segments, in order, the rows whose brand is present
    and not empty, and skips the others; a row without rating is segmented
    at [0.0].  On the rows that the analyzer builds, the brands of the
    segments are the non-empty brands of the rows. *)
Theorem segment_all_brands_rows (brand_ratings : list RatingDict)
  (rows : list SentimentAnalyzer.RatingRow) :
  segment_all_brands brand_ratings
  = map (fun d => segment_brand (default "" (get_brand d))
                                (default 0.0%float (get_avg_rating d)))
        (List.filter (fun d => truthy_brand (get_brand d)) brand_ratings) /\
  map brand (segment_all_brands (map rating_dict rows))
  = List.filter (fun name => negb (String.eqb name ""))
                (map SentimentAnalyzer.rr_brand rows) /\
  map avg_rating (segment_all_brands (map rating_dict rows))
  = map SentimentAnalyzer.rr_avg_rating
        (List.filter (fun row => negb (String.eqb (SentimentAnalyzer.rr_brand row) ""))
                     rows).
Proof.
  split; [apply segment_all_brands_filter|]. rewrite segment_all_brands_built.
  rewrite !map_map. cbn [segment_brand brand avg_rating]. split.
  - induction rows as [|row rows IH]; cbn [map List.filter]; [reflexivity|].
    destruct (String.eqb (SentimentAnalyzer.rr_brand row) ""); cbn [negb map];
      now rewrite IH.
  - reflexivity.
Qed.

Lemma price_partition (segments : list BrandSegment) :
  Py.len (List.filter (fun s => price_eqb (price_category s) PriceCategory.BUDGET) segments)
  + Py.len (List.filter (fun s => price_eqb (price_category s) PriceCategory.MID_RANGE) segments)
  + Py.len (List.filter (fun s => price_eqb (price_category s) PriceCategory.PREMIUM) segments)
  = Py.len segments.
Proof.
  unfold Py.len. induction segments as [|s ss IH]; [reflexivity|].
  cbn [List.filter]. destruct (price_category s); cbn [price_eqb length]; lia.
Qed.

Lemma quality_partition (segments : list BrandSegment) :
  Py.len (List.filter (fun s => quality_eqb (quality_category s) QualityCategory.BASIC) segments)
  + Py.len (List.filter (fun s => quality_eqb (quality_category s) QualityCategory.STANDARD) segments)
  + Py.len (List.filter (fun s => quality_eqb (quality_category s) QualityCategory.PREMIUM) segments)
  = Py.len segments.
Proof.
  unfold Py.len. induction segments as [|s ss IH]; [reflexivity|].
  cbn [List.filter]. destruct (quality_category s); cbn [quality_eqb length]; lia.
Qed.

(** The segmentation summary has a count under each of the three price
    values and each of the three quality values; either three counts add up
    to [total_brands], the number of segments, and ["brands"] has one entry
    per segment, in order. *)
Theorem segmentation_summary_counts (segments : list BrandSegment) :
  let summary := create_segmentation_summary segments in
  total_brands summary = Py.len segments /\
  (exists budget mid premium,
     price_categories summary !! "budget" = Some budget /\
     price_categories summary !! "mid_range" = Some mid /\
     price_categories summary !! "premium" = Some premium /\
     size (price_categories summary) = 3%nat /\
     budget + mid + premium = total_brands summary) /\
  (exists basic standard premium,
     quality_categories summary !! "basic" = Some basic /\
     quality_categories summary !! "standard" = Some standard /\
     quality_categories summary !! "premium" = Some premium /\
     size (quality_categories summary) = 3%nat /\
     basic + standard + premium = total_brands summary) /\
  map bd_brand (brands summary) = map brand segments.
Proof.
  cbv zeta. unfold create_segmentation_summary. cbv zeta.
  cbn [total_brands price_categories quality_categories brands fold_left
       price_value quality_value].
  assert (Hsize : forall (a b c : Z) (i j k : string),
            i <> j -> i <> k -> j <> k ->
            size (<[k := c]> (<[j := b]> (<[i := a]> (∅ : gmap string Z)))) = 3%nat).
  { intros a b c i j k Hij Hik Hjk.
    rewrite !map_size_insert_None, map_size_empty; [reflexivity|..].
    - apply lookup_empty.
    - rewrite lookup_insert_ne by exact Hij. apply lookup_empty.
    - rewrite !lookup_insert_ne by congruence. apply lookup_empty. }
  split; [reflexivity|]. split; [|split].
  - eexists _, _, _. split; [|split; [|split; [|split]]].
    + rewrite !lookup_insert_ne by discriminate. apply lookup_insert_eq.
    + rewrite lookup_insert_ne by discriminate. apply lookup_insert_eq.
    + apply lookup_insert_eq.
    + apply Hsize; discriminate.
    + apply price_partition.
  - eexists _, _, _. split; [|split; [|split; [|split]]].
    + rewrite !lookup_insert_ne by discriminate. apply lookup_insert_eq.
    + rewrite lookup_insert_ne by discriminate. apply lookup_insert_eq.
    + apply lookup_insert_eq.
    + apply Hsize; discriminate.
    + apply quality_partition.
  - rewrite append_loop_map. cbn [app]. rewrite map_map. reflexivity.
Qed.

(** [get_brands_by_category] returns, in order, exactly the segments that
    match every category given; without categories it returns the list
    itself, and filtering its result again by the same categories changes
    nothing. *)
Theorem brands_by_category_filter (segments : list BrandSegment)
  (price : option PriceCategory.t) (quality : option QualityCategory.t) :
  get_brands_by_category segments price quality
  = List.filter
      (fun s =>
         match price with Some c => price_eqb (price_category s) c | None => true end
         && match quality with Some c => quality_eqb (quality_category s) c | None => true end)
      segments /\
  (forall s, In s (get_brands_by_category segments price quality) <->
             In s segments /\
             (forall c, price = Some c -> price_category s = c) /\
             (forall c, quality = Some c -> quality_category s = c)) /\
  get_brands_by_category segments None None = segments /\
  get_brands_by_category (get_brands_by_category segments price quality) price quality
  = get_brands_by_category segments price quality.
Proof.
  assert (Hfilter : forall segs,
            get_brands_by_category segs price quality
            = List.filter
                (fun s =>
                   match price with Some c => price_eqb (price_category s) c | None => true end
                   && match quality with Some c => quality_eqb (quality_category s) c
                      | None => true end) segs).
  { intros segs. unfold get_brands_by_category. cbv zeta.
    destruct price as [p|], quality as [q|].
    - apply filter_twice. reflexivity.
    - apply List.filter_ext. intros s. now rewrite andb_true_r.
    - reflexivity.
    - symmetry. apply filter_all. reflexivity. }
  split; [apply Hfilter|]. split; [|split; [reflexivity|]].
  - intros s. rewrite Hfilter, List.filter_In, andb_true_iff.
    destruct price as [p|], quality as [q|];
      rewrite ?price_eqb_eq, ?quality_eqb_eq; split;
      try (intros (Hin & Hp & Hq); repeat split; auto; intros c [= <-]; auto);
      try (intros (Hin & Hp & Hq); repeat split; auto; discriminate).
  - rewrite !Hfilter. apply filter_twice. intros s. now rewrite andb_diag.
Qed.

End SegmentationRows.

(** ** More on the order of floats *)

Section FloatOrderMore.

Import FloatOrder.

Ltac float_rank :=
  repeat match goal with
  | H : (_ <? _)%float = true |- _ => apply ltb_rank in H; [|assumption..]
  | H : (_ <=? _)%float = true |- _ => apply leb_rank in H; [|assumption..]
  | H : (_ <? _)%float = false |- _ =>
      apply not_true_iff_false in H; rewrite ltb_rank in H by assumption
  | H : (_ <=? _)%float = false |- _ =>
      apply not_true_iff_false in H; rewrite leb_rank in H by assumption
  | |- (_ <? _)%float = true => apply ltb_rank; [assumption..|]
  | |- (_ <=? _)%float = true => apply leb_rank; [assumption..|]
  | |- (_ <? _)%float = false => apply not_true_iff_false; rewrite ltb_rank by assumption
  | |- (_ <=? _)%float = false => apply not_true_iff_false; rewrite leb_rank by assumption
  end;
  unfold lex_lt in *;
  repeat match goal with
  | |- context [rank ?f] => generalize dependent (rank f); intros [[? ?] ?]
  end;
  cbn [fst snd] in *; lia.

Lemma leb_false_ltb (x y : float) :
  is_number x = true -> is_number y = true ->
  (x <=? y)%float = false -> (y <? x)%float = true.
Proof. intros Hx Hy H. float_rank. Qed.

Lemma leb_trans (x y z : float) :
  is_number x = true -> is_number y = true -> is_number z = true ->
  (x <=? y)%float = true -> (y <=? z)%float = true -> (x <=? z)%float = true.
Proof. intros Hx Hy Hz H1 H2. float_rank. Qed.

Lemma ltb_leb_exclusive (x y : float) :
  is_number x = true -> is_number y = true ->
  (x <? y)%float = true -> (y <=? x)%float = true -> False.
Proof. intros Hx Hy H1 H2. float_rank. Qed.

Lemma leb_refl (x : float) : is_number x = true -> (x <=? x)%float = true.
Proof. intros Hx. float_rank. Qed.

End FloatOrderMore.

(** ** Uniqueness of the first best element, and filtering *)

Section BestFacts.

Variables (A : Type) (ok : A -> Prop) (better no_worse : A -> A -> bool).

Hypothesis exclusive :
  forall x y, ok x -> ok y -> better x y = true -> no_worse y x = true -> False.
Hypothesis better_weakens :
  forall x y, ok x -> ok y -> better x y = true -> no_worse x y = true.

Lemma first_best_unique (l : list A) (b1 b2 : A) :
  (forall s, In s l -> ok s) ->
  Best.first_best better no_worse l b1 ->
  Best.first_best better no_worse l b2 ->
  b1 = b2.
Proof.
  intros Hok (pre1 & post1 & H1 & Hpre1 & Hpost1) (pre2 & post2 & H2 & Hpre2 & Hpost2).
  assert (Hb1 : ok b1) by (apply Hok; rewrite H1; apply in_or_app; right; now left).
  assert (Hb2 : ok b2) by (apply Hok; rewrite H2; apply in_or_app; right; now left).
  rewrite H1 in H2. apply List.app_eq_app in H2 as [k [[Hp Hq] | [Hp Hq]]].
  - destruct k as [|x k]; [now injection Hq|].
    injection Hq as Hx Hk. subst x post2. exfalso.
    apply (exclusive b1 b2 Hb1 Hb2).
    + apply Hpre1. rewrite Hp. apply in_or_app. right. now left.
    + apply Hpost2. apply in_or_app. right. now left.
  - destruct k as [|x k]; [now injection Hq|].
    injection Hq as Hx Hk. subst x post1. exfalso.
    apply (exclusive b2 b1 Hb2 Hb1).
    + apply Hpre2. rewrite Hp. apply in_or_app. right. now left.
    + apply Hpost1. apply in_or_app. right. now left.
Qed.

Lemma filter_app_cons (f : A -> bool) (l pre' post' : list A) (b : A) :
  List.filter f l = pre' ++ b :: post' ->
  exists pre post,
    l = pre ++ b :: post /\ List.filter f pre = pre' /\ List.filter f post = post'.
Proof.
  revert pre'. induction l as [|x l IH]; intros pre' H; cbn [List.filter] in H.
  - destruct pre'; discriminate H.
  - destruct (f x) eqn:Hx.
    + destruct pre' as [|y pre'].
      * injection H as -> H. exists [], l. now split.
      * injection H as -> H. destruct (IH _ H) as (pre & post & -> & Hpre & Hpost).
        exists (y :: pre), post. cbn [List.filter app]. rewrite Hx, Hpre. now split.
    + destruct (IH _ H) as (pre & post & -> & Hpre & Hpost).
      exists (x :: pre), post. cbn [List.filter app]. rewrite Hx. now split.
Qed.

(** The best of the elements that pass [f] is the best of all, when every
    element that passes beats every element that does not. *)
Lemma first_best_of_filter (f : A -> bool) (l : list A) (b : A) :
  (forall s, In s l -> ok s) ->
  (forall x y, In x l -> In y l -> f x = true -> f y = false -> better x y = true) ->
  Best.first_best better no_worse (List.filter f l) b ->
  Best.first_best better no_worse l b.
Proof.
  intros Hok Hsep (pre' & post' & Hl & Hpre & Hpost).
  assert (Hfb : f b = true).
  { assert (Hin : In b (List.filter f l))
      by (rewrite Hl; apply in_or_app; right; now left).
    now apply List.filter_In in Hin. }
  destruct (filter_app_cons f l pre' post' b Hl) as (pre & post & -> & <- & <-).
  assert (Hb : In b (pre ++ b :: post)) by (apply in_or_app; right; now left).
  exists pre, post. split; [reflexivity|]. split; intros s Hs.
  - assert (Hin : In s (pre ++ b :: post)) by (apply in_or_app; now left).
    destruct (f s) eqn:Hfs.
    + apply Hpre, List.filter_In. now split.
    + now apply Hsep.
  - assert (Hin : In s (pre ++ b :: post)) by (apply in_or_app; right; now right).
    destruct (f s) eqn:Hfs.
    + apply Hpost, List.filter_In. now split.
    + apply better_weakens; auto.
Qed.

(** The best of all, when it passes [f], is the best of those that pass. *)
Lemma first_best_in_filter (f : A -> bool) (l : list A) (b : A) :
  f b = true ->
  Best.first_best better no_worse l b ->
  Best.first_best better no_worse (List.filter f l) b.
Proof.
  intros Hfb (pre & post & -> & Hpre & Hpost).
  exists (List.filter f pre), (List.filter f post).
  rewrite List.filter_app. cbn [List.filter]. rewrite Hfb.
  split; [reflexivity|].
  split; intros s [Hs _]%List.filter_In; auto.
Qed.

End BestFacts.

(** ** More on the cross-brand comparison *)

Section ComparisonFields.

Import BrandSegmenter InsightGenerator.

(** The other four entries of a non-empty comparison. *)
Lemma comparative_insights_lookup_rest (first : BrandSegment) (others : list BrandSegment) :
  let segments := first :: others in
  let insights := generate_comparative_insights segments in
  insights !! "premium_choice"
  = Some (match List.filter is_premium segments with
          | [] => VNone
          | b :: bs => VSegment (Py.max_by avg_rating b bs)
          end) /\
  insights !! "clean_ingredients"
  = Some (VBrands (map brand (List.filter (fun s => negb (artificial_sweeteners s))
                                          segments))) /\
  insights !! "third_party_tested"
  = Some (VBrands (map brand (List.filter third_party_tested segments))) /\
  exists body, insights !! "comparison_summary" = Some (VText (body ++ ".")%string).
Proof.
  cbv zeta. unfold generate_comparative_insights.
  generalize (List.filter is_high_quality (first :: others)).
  generalize (List.filter is_premium (first :: others)).
  intros premium high. cbv zeta.
  split; [|split; [|split]].
  4: { eexists. rewrite lookup_insert_eq. unfold _generate_comparison_summary.
       cbv zeta. reflexivity. }
  all: destruct high, premium;
    repeat first [ rewrite lookup_insert_eq | rewrite lookup_insert_ne by discriminate ];
    reflexivity.
Qed.

Lemma is_premium_quality (s : BrandSegment) :
  is_premium s = quality_eqb (quality_category s) QualityCategory.PREMIUM.
Proof. unfold is_premium. now destruct (quality_category s). Qed.

(** On a non-empty list of segments whose ratings are numbers:
    [clean_ingredients] and [third_party_tested] list, in input order, the
    brands without artificial sweeteners and the tested brands;
    [premium_choice] is [None] exactly when [find_premium_brands] is empty
    and otherwise the first of the PREMIUM-quality segments with the
    greatest rating; the summary text is present and ends with a full
    stop. *)
Theorem comparative_other_fields (segments : list BrandSegment) :
  segments <> [] ->
  (forall s, In s segments -> Selection.well_rated s) ->
  let insights := generate_comparative_insights segments in
  insights !! "clean_ingredients"
  = Some (VBrands (map brand (List.filter (fun s => negb (artificial_sweeteners s))
                                          segments))) /\
  insights !! "third_party_tested"
  = Some (VBrands (map brand (List.filter third_party_tested segments))) /\
  (find_premium_brands segments = [] <-> insights !! "premium_choice" = Some VNone) /\
  (find_premium_brands segments <> [] ->
   exists b,
     insights !! "premium_choice" = Some (VSegment b) /\
     quality_category b = QualityCategory.PREMIUM /\
     Selection.first_max avg_rating (find_premium_brands segments) b) /\
  (exists body, insights !! "comparison_summary" = Some (VText (body ++ ".")%string)).
Proof.
  intros Hne Hrated. cbv zeta.
  destruct segments as [|first others]; [congruence|]. clear Hne.
  destruct (comparative_insights_lookup_rest first others)
    as (Hpremium & Hclean & Htested & Hsummary).
  cbv zeta in Hpremium, Hclean, Htested, Hsummary.
  assert (Hfind : find_premium_brands (first :: others)
                  = List.filter is_premium (first :: others)).
  { unfold find_premium_brands. apply List.filter_ext. intros s.
    now rewrite is_premium_quality. }
  rewrite Hfind.
  split; [exact Hclean|]. split; [exact Htested|].
  split; [|split; [|exact Hsummary]].
  - rewrite Hpremium.
    destruct (List.filter is_premium (first :: others)); split;
      try reflexivity; intros H; congruence.
  - intros Hsome.
    destruct (List.filter is_premium (first :: others)) as [|b bs] eqn:Hp;
      [congruence|].
    assert (Hsub : forall s, In s (b :: bs) -> In s (first :: others) /\ is_premium s = true)
      by (intros s Hs; rewrite <- Hp in Hs; now apply List.filter_In in Hs).
    assert (Hmax : Selection.first_max avg_rating (b :: bs) (Py.max_by avg_rating b bs)).
    { apply max_by_first_max. intros s Hs. apply Hrated. now apply Hsub. }
    exists (Py.max_by avg_rating b bs). split; [exact Hpremium|]. split; [|exact Hmax].
    destruct Hmax as (pre & post & Hl & _ & _).
    assert (Hin : In (Py.max_by avg_rating b bs) (b :: bs))
      by (rewrite Hl; apply in_or_app; right; now left).
    apply Hsub in Hin as [_ Hq]. unfold is_premium in Hq.
    now destruct (quality_category (Py.max_by avg_rating b bs)).
Qed.

Lemma comparative_other_fields_witness :
  let kirkland := segment_brand "Kirkland" 4.2%float in
  let accent := segment_brand "Accent" 4.6%float in
  let isopure := segment_brand "Isopure" 4.8%float in
  let insights := generate_comparative_insights [kirkland; accent; isopure] in
  insights !! "clean_ingredients" = Some (VBrands ["Accent"]) /\
  insights !! "third_party_tested" = Some (VBrands ["Accent"]) /\
  insights !! "premium_choice" = Some (VSegment isopure).
Proof.
  cbv zeta.
  destruct (comparative_other_fields
              [segment_brand "Kirkland" 4.2%float; segment_brand "Accent" 4.6%float;
               segment_brand "Isopure" 4.8%float]) as (Hclean & Htested & _).
  - discriminate.
  - intros s [<- | [<- | [<- | []]]]; reflexivity.
  - rewrite Hclean, Htested. repeat split; vm_compute; reflexivity.
Defined.

(** A segment that is not PREMIUM by [_categorize_quality] is rated below
    every segment that is. *)
Lemma premium_rated_above (x y : BrandSegment) :
  Selection.well_rated x -> Selection.well_rated y ->
  quality_category x = _categorize_quality (avg_rating x) ->
  quality_category y = _categorize_quality (avg_rating y) ->
  is_premium x = true -> is_premium y = false ->
  (avg_rating y <? avg_rating x)%float = true.
Proof.
  unfold Selection.well_rated, is_premium. intros Hx Hy -> ->.
  unfold _categorize_quality, quality_thresholds. cbn [first_within].
  destruct (avg_rating x <=? 4.0)%float eqn:Hx4; [discriminate|].
  destruct (avg_rating x <=? 4.5)%float eqn:Hx45; [discriminate|]. intros _.
  assert (Hy45 : (avg_rating y <=? 4.5)%float = true -> (avg_rating y <? avg_rating x)%float = true).
  { intros H. apply (leb_ltb_trans _ 4.5%float _); auto.
    apply leb_false_ltb; auto. }
  destruct (avg_rating y <=? 4.0)%float eqn:Hy4.
  - intros _. apply Hy45. apply (leb_trans _ 4.0%float _); auto.
  - destruct (avg_rating y <=? 4.5)%float eqn:Hy5; [auto|].
    destruct (avg_rating y <=? infinity)%float; discriminate.
Qed.

(** When the quality tier of every segment is the one [_categorize_quality]
    gives its rating, as for the segments that [segment_brand] builds, and
    some segment is PREMIUM, [premium_choice] is the very segment chosen as
    [highest_quality]. *)
Theorem premium_choice_is_highest_quality (segments : list BrandSegment) :
  (forall s, In s segments ->
     Selection.well_rated s /\
     quality_category s = _categorize_quality (avg_rating s)) ->
  find_premium_brands segments <> [] ->
  let insights := generate_comparative_insights segments in
  insights !! "premium_choice" = insights !! "highest_quality" /\
  exists b, insights !! "highest_quality" = Some (VSegment b) /\
            quality_category b = QualityCategory.PREMIUM.
Proof.
  intros Hbuilt Hsome. cbv zeta.
  destruct segments as [|first others]; [now contradict Hsome|].
  destruct (comparative_insights_lookup_rest first others) as (Hpremium & _).
  destruct (comparative_insights_lookup first others) as (_ & Hquality & _).
  cbv zeta in Hpremium, Hquality.
  assert (Hfind : find_premium_brands (first :: others)
                  = List.filter is_premium (first :: others)).
  { unfold find_premium_brands. apply List.filter_ext. intros s.
    now rewrite is_premium_quality. }
  rewrite Hfind in Hsome.
  destruct (List.filter is_premium (first :: others)) as [|b bs] eqn:Hp; [congruence|].
  assert (Hsub : forall s, In s (b :: bs) -> In s (first :: others) /\ is_premium s = true)
    by (intros s Hs; rewrite <- Hp in Hs; now apply List.filter_In in Hs).
  assert (Hrated : forall s, In s (first :: others) ->
                             FloatOrder.is_number (avg_rating s) = true)
    by (intros s Hs; now apply Hbuilt).
  assert (Hamong : Selection.first_max avg_rating (b :: bs) (Py.max_by avg_rating b bs)).
  { apply max_by_first_max. intros s Hs. apply Hrated. now apply Hsub. }
  assert (Hall : Selection.first_max avg_rating (first :: others)
                   (Py.max_by avg_rating first others))
    by now apply max_by_first_max.
  assert (Hsame : Py.max_by avg_rating b bs = Py.max_by avg_rating first others).
  { apply (first_best_unique BrandSegment
             (fun s => FloatOrder.is_number (avg_rating s) = true)
             (fun x y => (avg_rating y <? avg_rating x)%float)
             (fun x y => (avg_rating y <=? avg_rating x)%float))
      with (l := first :: others).
    - intros x y Hx Hy H1 H2. exact (ltb_leb_exclusive _ _ Hy Hx H1 H2).
    - exact Hrated.
    - apply (first_best_of_filter BrandSegment
               (fun s => FloatOrder.is_number (avg_rating s) = true)
               (fun x y => (avg_rating y <? avg_rating x)%float)
               (fun x y => (avg_rating y <=? avg_rating x)%float))
        with (f := is_premium).
      + intros x y Hx Hy H. now apply ltb_leb.
      + exact Hrated.
      + intros x y Hx Hy Hfx Hfy.
        apply premium_rated_above; auto; now apply Hbuilt.
      + rewrite Hp. exact Hamong.
    - exact Hall. }
  rewrite Hpremium, Hquality, Hsame. split; [reflexivity|].
  eexists. split; [reflexivity|]. rewrite <- Hsame.
  destruct Hamong as (pre & post & Hl & _ & _).
  assert (Hin : In (Py.max_by avg_rating b bs) (b :: bs))
    by (rewrite Hl; apply in_or_app; right; now left).
  apply Hsub in Hin as [_ Hq]. unfold is_premium in Hq.
  now destruct (quality_category (Py.max_by avg_rating b bs)).
Qed.

Lemma premium_choice_is_highest_quality_witness :
  let segments := segment_all_brands
                    [mkRatingDict (Some "Kirkland") (Some 4.2%float);
                     mkRatingDict (Some "Accent") (Some 4.6%float);
                     mkRatingDict (Some "Isopure") (Some 4.8%float);
                     mkRatingDict (Some "Ghost") (Some 4.8%float)] in
  generate_comparative_insights segments !! "premium_choice"
  = Some (VSegment (segment_brand "Isopure" 4.8%float)) /\
  generate_comparative_insights segments !! "highest_quality"
  = Some (VSegment (segment_brand "Isopure" 4.8%float)).
Proof.
  cbv zeta.
  destruct (premium_choice_is_highest_quality
              (segment_all_brands
                 [mkRatingDict (Some "Kirkland") (Some 4.2%float);
                  mkRatingDict (Some "Accent") (Some 4.6%float);
                  mkRatingDict (Some "Isopure") (Some 4.8%float);
                  mkRatingDict (Some "Ghost") (Some 4.8%float)])) as [Heq _].
  - intros s [<- | [<- | [<- | [<- | []]]]]; split; reflexivity.
  - vm_compute. discriminate.
  - rewrite Heq. split; vm_compute; reflexivity.
Defined.

(** When no price is a NaN and the segment chosen as [most_affordable] is of
    STANDARD or PREMIUM quality, it is also the [best_value]. *)
Theorem best_value_is_most_affordable (segments : list BrandSegment) (b : BrandSegment) :
  (forall s, In s segments -> FloatOrder.is_number (price_key s) = true) ->
  generate_comparative_insights segments !! "most_affordable" = Some (VSegment b) ->
  is_high_quality b = true ->
  generate_comparative_insights segments !! "best_value" = Some (VSegment b).
Proof.
  intros Hnum Hcheap Hhigh.
  destruct segments as [|first others]; [vm_compute in Hcheap; discriminate Hcheap|].
  destruct (comparative_insights_lookup first others) as (Hbest & _ & Hmost).
  cbv zeta in Hbest, Hmost. rewrite Hmost in Hcheap. injection Hcheap as Hb.
  rewrite Hbest.
  assert (Hall : Selection.first_min price_key (first :: others) b)
    by (rewrite <- Hb; now apply min_by_first_min).
  assert (Hamong : Best.first_best (fun x y => (price_key x <? price_key y)%float)
                     (fun x y => (price_key x <=? price_key y)%float)
                     (List.filter is_high_quality (first :: others)) b)
    by now apply first_best_in_filter.
  destruct (List.filter is_high_quality (first :: others)) as [|h hs] eqn:Hf.
  - destruct Hamong as (pre & post & Hl & _). destruct pre; discriminate Hl.
  - do 2 f_equal.
    assert (Hsub : forall s, In s (h :: hs) -> In s (first :: others))
      by (intros s Hs; rewrite <- Hf in Hs; now apply List.filter_In in Hs).
    apply (first_best_unique BrandSegment
             (fun s => FloatOrder.is_number (price_key s) = true)
             (fun x y => (price_key x <? price_key y)%float)
             (fun x y => (price_key x <=? price_key y)%float))
      with (l := h :: hs).
    + intros x y Hx Hy H1 H2. exact (ltb_leb_exclusive _ _ Hx Hy H1 H2).
    + intros s Hs. now apply Hnum, Hsub.
    + apply min_by_first_min. intros s Hs. now apply Hnum, Hsub.
    + exact Hamong.
Qed.

Lemma best_value_is_most_affordable_witness :
  let segments := [segment_brand "Kirkland" 4.2%float; segment_brand "Accent" 4.6%float;
                   segment_brand "Ghost" 3.0%float] in
  generate_comparative_insights segments !! "best_value"
  = Some (VSegment (segment_brand "Kirkland" 4.2%float)).
Proof.
  cbv zeta.
  apply (best_value_is_most_affordable
           [segment_brand "Kirkland" 4.2%float; segment_brand "Accent" 4.6%float;
            segment_brand "Ghost" 3.0%float]).
  - intros s [<- | [<- | [<- | []]]]; reflexivity.
  - vm_compute. reflexivity.
  - reflexivity.
Defined.

End ComparisonFields.

(** ** The whole run *)

Section WholeRun.

Import SentimentAnalyzer BrandSegmenter InsightGenerator AnalysisEngine.

Lemma brand_step_entry (sa : Analyzer) (transcript : string)
  (acc : list BrandSentiment * list RatingRow) (brand : string) :
  brand_step sa transcript acc brand
  = (fst acc ++ [fst (PerBrand.entry sa transcript brand)],
     snd acc ++ [snd (PerBrand.entry sa transcript brand)]).
Proof.
  destruct acc as [ss rs]. unfold brand_step, PerBrand.entry.
  destruct (extract_statements_about_brand sa transcript brand); reflexivity.
Qed.

Lemma brand_loop_entries (sa : Analyzer) (transcript : string) (brands : list string) :
  brand_loop sa transcript brands
  = (map (fun b => fst (PerBrand.entry sa transcript b)) brands,
     map (fun b => snd (PerBrand.entry sa transcript b)) brands).
Proof.
  unfold brand_loop.
  assert (H : forall acc,
            fold_left (brand_step sa transcript) brands acc
            = (fst acc ++ map (fun b => fst (PerBrand.entry sa transcript b)) brands,
               snd acc ++ map (fun b => snd (PerBrand.entry sa transcript b)) brands)).
  { induction brands as [|b bs IH]; intros [ss rs]; cbn [fold_left map fst snd].
    - now rewrite !app_nil_r.
    - rewrite brand_step_entry, IH. cbn [fst snd]. now rewrite <- !app_assoc. }
  now rewrite H.
Qed.

(** With the engine's own analyzer, what is recorded for a brand carries
    that brand's name. *)
Lemma entry_brand (round : float -> Z -> float) (transcript brand : string) :
  SentimentAnalyzer.brand (fst (PerBrand.entry (sentiment_analyzer round) transcript brand))
  = brand /\
  rr_brand (snd (PerBrand.entry (sentiment_analyzer round) transcript brand)) = brand.
Proof.
  unfold PerBrand.entry, sentiment_analyzer.
  cbn [extract_statements_about_brand analyze_brand_statements create_rating_summary].
  destruct (SentimentAnalyzer.extract_statements_about_brand __init__ transcript brand)
    as [|s ss]; [split; reflexivity|].
  cbn [fst snd].
  destruct (analyze_brand_statements_fields __init__ brand (s :: ss)) as [_ Hbrand].
  split; [exact Hbrand|].
  unfold SentimentAnalyzer.create_rating_summary. cbv zeta.
  destruct (Py.len _ =? 0); cbn [rr_brand]; exact Hbrand.
Qed.

Lemma sentiment_for_found (ss : list BrandSentiment) (name : string) :
  In name (map SentimentAnalyzer.brand ss) ->
  exists sd, sentiment_for ss name = Some sd.
Proof.
  unfold sentiment_for. induction ss as [|s ss IH]; intros Hin; [destruct Hin|].
  cbn [List.find]. destruct (String.eqb_spec (SentimentAnalyzer.brand s) name) as [_ | Hne].
  - eauto.
  - destruct Hin as [Heq | Hin]; [congruence|]. now apply IH.
Qed.

Lemma insight_loop_all (ss : list BrandSentiment) (segments : list BrandSegment) :
  (forall seg, In seg segments ->
               In (BrandSegmenter.brand seg) (map SentimentAnalyzer.brand ss)) ->
  insight_loop ss segments
  = map (fun seg => generate_brand_insight seg None) segments.
Proof.
  unfold insight_loop. intros Hall.
  assert (H : forall acc,
            fold_left
              (fun brand_insights segment =>
                 match sentiment_for ss (BrandSegmenter.brand segment) with
                 | None => brand_insights
                 | Some sentiment_data =>
                     brand_insights ++ [generate_brand_insight segment (Some sentiment_data)]
                 end) segments acc
            = acc ++ map (fun seg => generate_brand_insight seg None) segments).
  { induction segments as [|seg segs IH]; intros acc; cbn [fold_left map].
    - now rewrite app_nil_r.
    - destruct (sentiment_for_found ss (BrandSegmenter.brand seg)) as [sd ->];
        [apply Hall; now left|].
      rewrite IH by (intros s Hs; apply Hall; now right).
      now rewrite <- app_assoc. }
  now rewrite H.
Qed.

Lemma filter_all_in {A : Type} (f : A -> bool) (l : list A) :
  (forall x, In x l -> f x = true) -> List.filter f l = l.
Proof.
  induction l as [|x l IH]; intros H; cbn [List.filter]; [reflexivity|].
  rewrite (H x) by now left. f_equal. apply IH. intros y Hy. apply H. now right.
Qed.

Lemma filter_names_In (brands : list string) (name : string) :
  In name (List.filter (fun b => negb (String.eqb b "")) brands) -> In name brands.
Proof. now intros [H _]%List.filter_In. Qed.

(** The run with the engine's own analyzer keeps everything aligned with the
    brands in discovery order: one sentiment and one rating row per brand,
    carrying its name, either the neutral default or the aggregate of its
    statements; one segment per brand whose name is not empty; and one
    insight per segment, none skipped, which does not depend on the
    sentiment found.  Without brands everything is empty, summary and
    comparison too; with brands the comparison is that of the segments and
    the summary is a full one. *)
Theorem run_full_analysis_aligned (round : float -> Z -> float)
  (brands : list string) (transcript : string) :
  let sa := sentiment_analyzer round in
  let r := run_full_analysis round sa brands transcript in
  result_brands r = brands /\
  brand_sentiments r = map (fun b => fst (PerBrand.entry sa transcript b)) brands /\
  brand_ratings r = map (fun b => snd (PerBrand.entry sa transcript b)) brands /\
  map SentimentAnalyzer.brand (brand_sentiments r) = brands /\
  map rr_brand (brand_ratings r) = brands /\
  map BrandSegmenter.brand (brand_segments r)
  = List.filter (fun b => negb (String.eqb b "")) brands /\
  brand_insights r = map (fun seg => generate_brand_insight seg None) (brand_segments r) /\
  (brands = [] -> comparative_insights r = ∅ /\ result_summary r = SummaryEmpty) /\
  (brands <> [] ->
   comparative_insights r = generate_comparative_insights (brand_segments r) /\
   exists fields, result_summary r = Summary fields).
Proof.
  cbv zeta. set (sa := sentiment_analyzer round).
  assert (Hnames : map SentimentAnalyzer.brand
                     (map (fun b => fst (PerBrand.entry sa transcript b)) brands) = brands).
  { rewrite map_map. rewrite <- (map_id brands) at 2. apply map_ext.
    intros b. apply entry_brand. }
  assert (Hrows : map rr_brand
                    (map (fun b => snd (PerBrand.entry sa transcript b)) brands) = brands).
  { rewrite map_map. rewrite <- (map_id brands) at 2. apply map_ext.
    intros b. apply entry_brand. }
  unfold run_full_analysis. rewrite brand_loop_entries.
  destruct brands as [|b bs].
  - do 7 (split; [reflexivity|]).
    split; [intros _; split; reflexivity|]. intros H. now contradict H.
  - remember (b :: bs) as brands eqn:Hbrands.
    remember (map (fun b => fst (PerBrand.entry sa transcript b)) brands) as ss eqn:Hss.
    remember (map (fun b => snd (PerBrand.entry sa transcript b)) brands) as rs eqn:Hrs.
    assert (Hsegs : map BrandSegmenter.brand (segment_all_brands (map rating_dict rs))
                    = List.filter (fun b => negb (String.eqb b "")) brands).
    { rewrite segment_all_brands_built_brands. now rewrite Hrows. }
    destruct rs as [|row rows]; [rewrite Hbrands in Hrs; discriminate Hrs|].
    cbn [result_brands brand_sentiments brand_ratings brand_segments brand_insights
         comparative_insights result_summary].
    split; [reflexivity|]. split; [reflexivity|]. split; [reflexivity|].
    split; [exact Hnames|]. split; [exact Hrows|]. split; [exact Hsegs|].
    split; [|split].
    + apply insight_loop_all. intros seg Hseg. rewrite Hnames.
      apply filter_names_In. rewrite <- Hsegs. now apply in_map.
    + intros H. rewrite Hbrands in H. discriminate H.
    + intros _. split; [reflexivity|].
      unfold _create_analysis_summary. eauto.
Qed.

Lemma run_full_analysis_with_brands (round : float -> Z -> float)
  (sa : Analyzer) (brands : list string) (transcript : string) :
  brands <> [] ->
  let rs := map (fun b => snd (PerBrand.entry sa transcript b)) brands in
  let r := run_full_analysis round sa brands transcript in
  rs <> [] /\
  brand_segments r = segment_all_brands (map rating_dict rs) /\
  result_summary r
  = _create_analysis_summary round brands rs (segment_all_brands (map rating_dict rs)).
Proof.
  intros Hne. cbv zeta. unfold run_full_analysis. rewrite brand_loop_entries.
  destruct brands as [|b bs]; [congruence|].
  remember (b :: bs) as brands eqn:Hbrands.
  remember (map (fun b => snd (PerBrand.entry sa transcript b)) brands) as rs eqn:Hrs.
  destruct rs as [|row rows]; [rewrite Hbrands in Hrs; discriminate Hrs|].
  split; [discriminate|]. split; reflexivity.
Qed.

Lemma budget_value_filter (segments : list BrandSegment) :
  List.filter (fun s => String.eqb (price_value (price_category s)) "budget") segments
  = List.filter (fun s => price_eqb (price_category s) PriceCategory.BUDGET) segments.
Proof. apply List.filter_ext. intros s. now destruct (price_category s). Qed.

Lemma premium_value_filter (segments : list BrandSegment) :
  List.filter (fun s => String.eqb (price_value (price_category s)) "premium") segments
  = List.filter (fun s => price_eqb (price_category s) PriceCategory.PREMIUM) segments.
Proof. apply List.filter_ext. intros s. now destruct (price_category s). Qed.

Lemma high_quality_value_count (segments : list BrandSegment) :
  Py.len (List.filter
            (fun s => existsb (String.eqb (quality_value (quality_category s)))
                              ["standard"; "premium"]) segments)
  = Py.len (List.filter (fun s => quality_eqb (quality_category s) QualityCategory.STANDARD)
                        segments)
    + Py.len (List.filter (fun s => quality_eqb (quality_category s) QualityCategory.PREMIUM)
                          segments).
Proof.
  unfold Py.len. induction segments as [|s ss IH]; [reflexivity|].
  cbn [List.filter]. destruct (quality_category s);
    cbn [quality_value quality_eqb];
    match goal with
    | |- context [if ?c then _ else _] =>
        let v := eval vm_compute in c in change c with v
    end; cbn [length]; lia.
Qed.

(** The roll-up summary of a run over at least one brand is a full summary.
    Its budget, premium and high-quality counts are those of the segments;
    [mid_range_brands] and [basic_quality_brands], computed by subtraction
    from the number of brands, are the MID_RANGE and BASIC counts plus the
    number of brands that have no segment, which are the brands with an
    empty name; when no name is empty they are exact. *)
Theorem analysis_summary_counts (round : float -> Z -> float)
  (brands : list string) (transcript : string) :
  brands <> [] ->
  let r := run_full_analysis round (sentiment_analyzer round) brands transcript in
  let segments := brand_segments r in
  let priced c := Py.len (List.filter (fun s => price_eqb (price_category s) c) segments) in
  let graded c := Py.len (List.filter (fun s => quality_eqb (quality_category s) c) segments) in
  exists fields,
    result_summary r = Summary fields /\
    total_brands_analyzed fields = Py.len brands /\
    budget_brands fields = priced PriceCategory.BUDGET /\
    premium_brands fields = priced PriceCategory.PREMIUM /\
    mid_range_brands fields
    = priced PriceCategory.MID_RANGE + (Py.len brands - Py.len segments) /\
    high_quality_brands fields
    = graded QualityCategory.STANDARD + graded QualityCategory.PREMIUM /\
    basic_quality_brands fields
    = graded QualityCategory.BASIC + (Py.len brands - Py.len segments) /\
    Py.len segments
    = Py.len (List.filter (fun b => negb (String.eqb b "")) brands) /\
    ((forall b, In b brands -> b <> "") ->
     Py.len segments = Py.len brands /\
     mid_range_brands fields = priced PriceCategory.MID_RANGE /\
     basic_quality_brands fields = graded QualityCategory.BASIC).
Proof.
  intros Hne. cbv zeta.
  destruct (run_full_analysis_with_brands round (sentiment_analyzer round) brands
              transcript Hne) as (Hrs & Hsegs & Hsum).
  cbv zeta in Hrs, Hsegs, Hsum. rewrite Hsum, Hsegs.
  assert (Hlen : Py.len (segment_all_brands
                           (map rating_dict
                              (map (fun b => snd (PerBrand.entry (sentiment_analyzer round)
                                                    transcript b)) brands)))
                 = Py.len (List.filter (fun b => negb (String.eqb b "")) brands)).
  { unfold Py.len. f_equal.
    rewrite <- (length_map BrandSegmenter.brand), segment_all_brands_built_brands.
    rewrite map_map. f_equal. f_equal. rewrite <- (map_id brands) at 2.
    apply map_ext. intros b. apply entry_brand. }
  set (segments := segment_all_brands _) in *.
  destruct (map (fun b => snd (PerBrand.entry (sentiment_analyzer round) transcript b))
                brands) as [|row rows]; [congruence|].
  unfold _create_analysis_summary. cbv zeta.
  rewrite budget_value_filter, premium_value_filter, high_quality_value_count.
  pose proof (price_partition segments) as Hprice.
  pose proof (quality_partition segments) as Hquality.
  eexists. split; [reflexivity|].
  cbn [total_brands_analyzed budget_brands premium_brands mid_range_brands
       high_quality_brands basic_quality_brands].
  split; [reflexivity|]. split; [reflexivity|]. split; [reflexivity|].
  split; [lia|]. split; [reflexivity|]. split; [lia|]. split; [exact Hlen|].
  intros Hnames.
  assert (Hall : List.filter (fun b => negb (String.eqb b "")) brands = brands).
  { apply filter_all_in. intros b Hb. apply negb_true_iff, String.eqb_neq. now apply Hnames. }
  rewrite Hall in Hlen. split; [exact Hlen|]. split; lia.
Qed.

Lemma analysis_summary_counts_witness :
  exists fields,
    result_summary
      (run_full_analysis (fun x _ => x) (sentiment_analyzer (fun x _ => x))
         ["Ghost"; "Kirkland"] "Kirkland is great. Ghost is bad. I like Kirkland!")
    = Summary fields /\
    budget_brands fields = 1 /\ mid_range_brands fields = 1 /\ premium_brands fields = 0.
Proof.
  destruct (analysis_summary_counts (fun x _ => x) ["Ghost"; "Kirkland"]
              "Kirkland is great. Ghost is bad. I like Kirkland!")
    as (fields & Hsum & _ & Hbudget & Hpremium & _ & _ & _ & _ & Hexact).
  - discriminate.
  - exists fields. split; [exact Hsum|].
    destruct Hexact as (_ & Hmid & _).
    + intros b [<- | [<- | []]]; discriminate.
    + rewrite Hbudget, Hmid, Hpremium. repeat split; vm_compute; reflexivity.
Defined.

End WholeRun.

(** ** Insights of the segments that [segment_brand] builds *)

Section InsightRules.

Import FloatOrder BrandSegmenter InsightGenerator.

Lemma leb_numbers (x y : float) :
  (x <=? y)%float = true -> is_number x = true /\ is_number y = true.
Proof.
  unfold is_number. rewrite FloatAxioms.leb_spec, !FloatAxioms.eqb_spec.
  destruct (Prim2SF x) as [[]|[]| |[] ? ?], (Prim2SF y) as [[]|[]| |[] ? ?];
    cbn; try discriminate; intros _; split; try reflexivity;
    rewrite ?Z.compare_refl, ?Pos.compare_cont_refl; reflexivity.
Qed.

Lemma ltb_numbers (x y : float) :
  (x <? y)%float = true -> is_number x = true /\ is_number y = true.
Proof.
  unfold is_number. rewrite FloatAxioms.ltb_spec, !FloatAxioms.eqb_spec.
  destruct (Prim2SF x) as [[]|[]| |[] ? ?], (Prim2SF y) as [[]|[]| |[] ? ?];
    cbn; try discriminate; intros _; split; try reflexivity;
    rewrite ?Z.compare_refl, ?Pos.compare_cont_refl; reflexivity.
Qed.

Lemma leb_antisym (x y : float) :
  (x <=? y)%float = true -> (y <=? x)%float = true -> (x =? y)%float = true.
Proof.
  intros Hxy Hyx. destruct (leb_numbers x y Hxy) as [Hx Hy].
  apply leb_rank in Hxy; [|assumption..]. apply leb_rank in Hyx; [|assumption..].
  apply is_number_not_nan in Hx, Hy.
  destruct (SFcompare_rank _ _ Hx Hy) as (c & Hc & Hlt & Hgt).
  rewrite FloatAxioms.eqb_spec. unfold SFeqb. rewrite Hc.
  destruct c; [reflexivity|tauto|tauto].
Qed.

Lemma basic_rating_below_high (rating : float) :
  (rating <=? 4.0)%float = true -> (4.5 <=? rating)%float = false.
Proof.
  intros H. destruct (4.5 <=? rating)%float eqn:E; [|reflexivity].
  destruct (leb_numbers _ _ H) as [Hr H4]. destruct (leb_numbers _ _ E) as [H45 _].
  pose proof (leb_trans _ _ _ H45 Hr H4 E H) as Habs. vm_compute in Habs. discriminate Habs.
Qed.

Lemma low_rating_is_basic (rating : float) :
  (rating <? 4.0)%float = true -> (rating <=? 4.0)%float = true.
Proof. intros H. destruct (ltb_numbers _ _ H) as [Hr H4]. now apply ltb_leb. Qed.

(** What [segment_brand] reads for a brand is one of the six catalog
    entries or the empty default. *)
Lemma catalog_info (brand : string) :
  In (default no_info (brand_data !! brand))
     [ mkBrandInfo (Some 0.78%float) (Some 25) false true
         ["Costco brand"; "Good mixability"; "Budget friendly"];
       mkBrandInfo (Some 1.30%float) (Some 25) false true
         ["High protein percentage"; "Added vitamins"; "Premium quality"];
       mkBrandInfo (Some 1.26%float) (Some 25) true true
         ["Third party tested"; "High protein content"; "BCAAs included"];
       mkBrandInfo (Some 0.88%float) (Some 25) true false
         ["Clean ingredients"; "No artificial sweeteners"; "Athlete tested"];
       mkBrandInfo (Some 0.62%float) (Some 25) true true
         ["Best value"; "High protein percentage"; "Third party tested"];
       mkBrandInfo (Some 0.88%float) (Some 24) false true
         ["Widely recognized"; "18 flavors"; "Good value"];
       no_info ].
Proof.
  unfold brand_data.
  repeat (rewrite lookup_insert; case_decide;
          [cbn [default In]; repeat (first [left; reflexivity | right])|]).
  rewrite lookup_empty. cbn [default In]. repeat (first [left; reflexivity | right]).
Qed.

(** For every brand name and every rating, the insight of the segment that
    [segment_brand] builds never lists the strength "Competitive pricing"
    nor the weakness "Lower protein content compared to competitors": no
    catalog price lies above 0.90 and below 1.0, and no catalog protein
    content is below 24.  It lists "High customer satisfaction" only for a
    STANDARD segment whose rating equals 4.5, and "Lower customer
    satisfaction" only together with "Basic quality level". *)
Theorem built_segment_insight_rules (brand : string) (rating : float)
  (sentiment_data : option SentimentAnalyzer.BrandSentiment) :
  let segment := segment_brand brand rating in
  let insight := generate_brand_insight segment sentiment_data in
  ~ In "Competitive pricing" (strengths insight) /\
  ~ In "Lower protein content compared to competitors" (weaknesses insight) /\
  (In "High customer satisfaction" (strengths insight) ->
   quality_category segment = QualityCategory.STANDARD /\ (rating =? 4.5)%float = true) /\
  (In "Lower customer satisfaction" (weaknesses insight) ->
   In "Basic quality level" (weaknesses insight)).
Proof.
  cbv zeta. rewrite <- !mem_In.
  unfold generate_brand_insight. cbv zeta. cbn [strengths weaknesses].
  unfold segment_brand. cbv zeta.
  generalize (catalog_info brand).
  generalize (default no_info (brand_data !! brand)). intros info Hinfo.
  unfold _identify_strengths, _identify_weaknesses, _categorize_quality,
    quality_thresholds. cbv zeta.
  cbn [first_within quality_category price_category avg_rating price_per_serving
       protein_content third_party_tested artificial_sweeteners features].
  generalize (basic_rating_below_high rating) (leb_antisym rating 4.5%float)
    (low_rating_is_basic rating).
  destruct (rating <=? 4.0)%float, (rating <=? 4.5)%float, (rating <=? infinity)%float,
    (4.5 <=? rating)%float, (rating <? 4.0)%float;
    intros H1 H2 H3;
    try (specialize (H1 eq_refl); discriminate H1);
    try (specialize (H3 eq_refl); discriminate H3);
    cbn [In] in Hinfo;
    repeat (destruct Hinfo as [<- | Hinfo]);
    try contradiction;
    vm_compute; intuition (discriminate || reflexivity).
Qed.

End InsightRules.

(** ** Brand names and brand matches *)

Section BrandNames.

Import BrandExtractor.

Lemma lower_length (s : string) : String.length (Py.lower s) = String.length s.
Proof. induction s as [|c s IH]; cbn; [reflexivity|now rewrite IH]. Qed.

Lemma lower_substring (n m : nat) (s : string) :
  Py.lower (substring n m s) = substring n m (Py.lower s).
Proof.
  revert n m. induction s as [|c s IH]; intros [|n] [|m]; cbn; try reflexivity.
  - now rewrite IH.
  - apply IH.
  - apply IH.
Qed.

Lemma substring_whole (s : string) : substring 0 (String.length s) s = s.
Proof. induction s as [|c s IH]; cbn; [reflexivity|now rewrite IH]. Qed.

Lemma substring_twice (a b : nat) (s : string) :
  substring 0 a (substring 0 b s) = substring 0 (Nat.min a b) s.
Proof.
  revert a b. induction s as [|c s IH]; intros [|a] [|b]; cbn; try reflexivity.
  now rewrite IH.
Qed.

Lemma substring_is_prefix (n : nat) (s : string) :
  String.prefix (substring 0 n s) s = true.
Proof.
  revert n. induction s as [|c s IH]; intros [|n]; cbn; try reflexivity.
  destruct (ascii_dec c c); [apply IH|congruence].
Qed.

Lemma substring_length_le (n : nat) (s : string) :
  (String.length (substring 0 n s) <= String.length s)%nat.
Proof.
  revert n. induction s as [|c s IH]; intros [|n]; cbn; try lia.
  specialize (IH n). lia.
Qed.

(** Each turn of the suffix loop keeps a leading part of the name. *)
Lemma strip_suffix_leading (n : nat) (name suffix : string) :
  exists k, strip_suffix (substring 0 n name) suffix = substring 0 k name.
Proof.
  unfold strip_suffix, without_last. destruct (endswith _ _).
  - rewrite substring_twice. eexists. reflexivity.
  - eexists. reflexivity.
Qed.

Lemma stripped_leading (name : string) :
  exists k, fold_left strip_suffix suffixes name = substring 0 k name.
Proof.
  unfold suffixes. cbn [fold_left].
  destruct (strip_suffix_leading (String.length name) name " brand") as [k1 E1].
  rewrite substring_whole in E1. rewrite E1.
  destruct (strip_suffix_leading k1 name " protein") as [k2 ->].
  destruct (strip_suffix_leading k2 name " powder") as [k3 ->].
  destruct (strip_suffix_leading k3 name " supplement") as [k4 ->].
  now exists k4.
Qed.

Lemma brand_mappings_lower (key canonical : string) :
  brand_mappings !! key = Some canonical ->
  Py.lower canonical = key /\
  In canonical ["My Protein"; "Optimum Nutrition"; "Transparent Labs"].
Proof.
  unfold brand_mappings.
  repeat (rewrite lookup_insert; case_decide;
          [intros [= <-]; subst key; split; [reflexivity|cbn; tauto]|]).
  rewrite lookup_empty. discriminate.
Qed.

Lemma strip_suffix_unchanged (name suffix : string) :
  endswith (Py.lower name) (Py.lower suffix) = false -> strip_suffix name suffix = name.
Proof. unfold strip_suffix. now intros ->. Qed.

Lemma clean_unsuffixed (name : string) :
  forallb (fun suffix => negb (endswith (Py.lower name) (Py.lower suffix))) suffixes = true ->
  _clean_brand_name name = default name (brand_mappings !! Py.lower name).
Proof.
  unfold _clean_brand_name, suffixes. cbv zeta. cbn [forallb fold_left]. intros H.
  repeat (apply andb_prop in H as [?%negb_true_iff H]).
  rewrite (strip_suffix_unchanged name " brand") by assumption.
  rewrite (strip_suffix_unchanged name " protein") by assumption.
  rewrite (strip_suffix_unchanged name " powder") by assumption.
  rewrite (strip_suffix_unchanged name " supplement") by assumption.
  reflexivity.
Qed.

(** A cleaned name, lower-cased, is a leading part of the lower-cased
    input; the cleaned name itself is a leading part of the input or one of
    the three canonical spellings, and is never longer than the input.  A
    name that ends in none of the four suffixes and is not a mapped name
    (both regardless of case) is returned as it is. *)
Theorem clean_brand_name_leading (name : string) :
  let cleaned := _clean_brand_name name in
  String.prefix (Py.lower cleaned) (Py.lower name) = true /\
  (String.prefix cleaned name = true \/
   In cleaned ["My Protein"; "Optimum Nutrition"; "Transparent Labs"]) /\
  (String.length cleaned <= String.length name)%nat /\
  (forallb (fun suffix => negb (endswith (Py.lower name) (Py.lower suffix))) suffixes = true ->
   brand_mappings !! Py.lower name = None ->
   cleaned = name).
Proof.
  cbv zeta. unfold _clean_brand_name. cbv zeta.
  split; [|split; [|split]].
  - destruct (stripped_leading name) as [k ->].
    destruct (brand_mappings !! _) as [canonical|] eqn:E; cbn [default from_option id].
    + apply brand_mappings_lower in E as [-> _].
      rewrite lower_substring. apply substring_is_prefix.
    + rewrite lower_substring. apply substring_is_prefix.
  - destruct (stripped_leading name) as [k ->].
    destruct (brand_mappings !! _) as [canonical|] eqn:E; cbn [default from_option id].
    + right. now apply brand_mappings_lower in E as [_ ?].
    + left. apply substring_is_prefix.
  - destruct (stripped_leading name) as [k ->].
    destruct (brand_mappings !! _) as [canonical|] eqn:E; cbn [default from_option id].
    + apply brand_mappings_lower in E as [E _].
      rewrite <- (lower_length canonical), E, lower_length. apply substring_length_le.
    + apply substring_length_le.
  - intros H Hmap. pose proof (clean_unsuffixed name H) as E.
    unfold _clean_brand_name in E. cbv zeta in E. rewrite E, Hmap. reflexivity.
Qed.

(** The plain name "My Protein", in any capitalisation, ends in the suffix
    " protein": cleaning cuts it down to its first two characters, so the
    mapping to the canonical spelling is not reached. *)
Theorem my_protein_loses_its_second_word (name : string) :
  Py.lower name = "my protein" ->
  _clean_brand_name name = substring 0 2 name /\
  Py.lower (_clean_brand_name name) = "my".
Proof.
  intros H.
  assert (Hlen : String.length name = 10%nat) by now rewrite <- lower_length, H.
  assert (Hmy : Py.lower (substring 0 2 name) = "my") by now rewrite lower_substring, H.
  assert (E : _clean_brand_name name = substring 0 2 name).
  { unfold _clean_brand_name, suffixes. cbv zeta. cbn [fold_left].
    assert (E1 : strip_suffix name " brand" = name).
    { unfold strip_suffix. rewrite H. reflexivity. }
    rewrite E1.
    assert (E2 : strip_suffix name " protein" = substring 0 2 name).
    { unfold strip_suffix, without_last. rewrite H, Hlen. reflexivity. }
    rewrite E2.
    assert (E3 : strip_suffix (substring 0 2 name) " powder" = substring 0 2 name).
    { unfold strip_suffix. rewrite Hmy. reflexivity. }
    rewrite E3.
    assert (E4 : strip_suffix (substring 0 2 name) " supplement" = substring 0 2 name).
    { unfold strip_suffix. rewrite Hmy. reflexivity. }
    rewrite E4, Hmy.
    replace (brand_mappings !! "my") with (@None string) by (vm_compute; reflexivity).
    reflexivity. }
  rewrite E. split; [reflexivity|exact Hmy].
Qed.

Lemma my_protein_loses_its_second_word_witness :
  _clean_brand_name "My Protein" = "My" /\ Py.lower (_clean_brand_name "My Protein") = "my".
Proof. apply (my_protein_loses_its_second_word "My Protein"). reflexivity. Defined.

(** "Optimum Nutrition" and "Transparent Labs", in any capitalisation, are
    returned in their canonical spelling. *)
Theorem canonical_spelling_restored (name canonical : string) :
  In canonical ["Optimum Nutrition"; "Transparent Labs"] ->
  Py.lower name = Py.lower canonical ->
  _clean_brand_name name = canonical.
Proof.
  intros Hin H.
  rewrite clean_unsuffixed; rewrite H;
    destruct Hin as [<- | [<- | []]]; vm_compute; reflexivity.
Qed.

Lemma canonical_spelling_restored_witness :
  _clean_brand_name "OPTIMUM nutrition" = "Optimum Nutrition".
Proof.
  apply (canonical_spelling_restored "OPTIMUM nutrition" "Optimum Nutrition");
    [cbn; tauto|reflexivity].
Defined.










End BrandNames.
